(** * The rye processor of the pep621 manager

    A shallow embedding of [lib/modules/manager/pep621/processors/rye.ts]:
    the command generator [generateCMDs] with its helper
    [addPackageToCMDRecord], and the artifact updater
    [RyeProcessor.updateArtifacts], followed by the properties of both. *)

From Stdlib Require Import String Ascii List Bool Arith Lia.
Import ListNotations.
Open Scope string_scope.

Set Implicit Arguments.

(** ** JavaScript values used by the processor *)

Module Js.

(** A thrown value.  The processor only ever reads [err.message]. *)
Record Error : Type := mkError { message : string }.

(** The completion of a call: it returns normally or it throws. *)
Inductive Completion (A : Type) : Type :=
| Normal (a : A)
| Thrown (e : Error).
Arguments Thrown {A} e.

(** [is.nullOrUndefined]; [null] and [undefined] are both [None]. *)
Definition nullOrUndefined {A : Type} (v : option A) : bool :=
  match v with
  | None => true
  | Some _ => false
  end.

(** [a ?? b] *)
Definition nullish {A : Type} (a b : option A) : option A :=
  match a with
  | Some _ => a
  | None => b
  end.

(** [a !== b] on values that are a string or [null]. *)
Definition strict_neq (a b : option string) : bool :=
  match a, b with
  | Some x, Some y => negb (String.eqb x y)
  | None, None => false
  | _, _ => true
  end.

(** [s.split(sep)] for a one-character separator: the result is never
    empty, and [n] separators give [n + 1] pieces. *)
Fixpoint split (sep : ascii) (s : string) : list string :=
  match s with
  | EmptyString => [EmptyString]
  | String c rest =>
      if Ascii.eqb c sep then EmptyString :: split sep rest
      else match split sep rest with
           | [] => [String c EmptyString]
           | piece :: pieces => String c piece :: pieces
           end
  end.

(** The string an array element contributes to [Array.prototype.join]:
    [undefined] and [null] contribute the empty string. *)
Definition element_text (v : option string) : string :=
  match v with
  | Some s => s
  | None => ""
  end.

(** [arr.join(sep)] *)
Definition join (sep : string) (arr : list (option string)) : string :=
  String.concat sep (map element_text arr).

(** Reading a property of [undefined]: what [dep.depName!.split] throws
    when [depName] is missing. *)
Definition TypeError_split : Error :=
  mkError "Cannot read properties of undefined (reading 'split')".

End Js.

Import Js.

(** ** Data model *)

(** The table [depTypes] of [../utils]; only the three entries the
    pep621 processors name are needed. *)
Record DepTypes : Type := mkDepTypes {
  dependencies : string;
  optionalDependencies : string;
  ryeDevDependencies : string
}.

(** An entry of [updatedDeps]; every field of [Upgrade] is optional. *)
Record Upgrade : Type := mkUpgrade {
  depType : option string;
  depName : option string;
  packageName : option string
}.

Definition ryeUpdateLockCMD : string := "rye lock".
Definition ryeUpdatePackageCMD : string := "rye lock --update".

(** ** The command record

    [packagesByCMD] is a [Record<string, string[]>] that is enumerated
    with [for ... in]: an association list in insertion order.  The
    arrays may hold [undefined], since the names pushed come from
    optional fields. *)

Definition CMDRecord : Type := list (string * list (option string)).

Module CMD.

(** [packagesByCMD[key]] *)
Fixpoint get (key : string) (r : CMDRecord) : option (list (option string)) :=
  match r with
  | [] => None
  | (k, v) :: r' => if String.eqb k key then Some v else get key r'
  end.

(** [packagesByCMD[key] = v]: an existing key keeps its place, a new
    key goes last. *)
Fixpoint set (key : string) (v : list (option string)) (r : CMDRecord) : CMDRecord :=
  match r with
  | [] => [(key, v)]
  | (k, w) :: r' =>
      if String.eqb k key then (k, v) :: r' else (k, w) :: set key v r'
  end.

Definition keys (r : CMDRecord) : list string := map fst r.

End CMD.

(** [addPackageToCMDRecord]; [push] mutates the array stored under the
    key, which is written here as storing the extended array. *)
Definition addPackageToCMDRecord
    (packagesByCMD : CMDRecord) (commandPrefix : string)
    (packageName : option string) : CMDRecord :=
  let packagesByCMD :=
    if nullOrUndefined (CMD.get commandPrefix packagesByCMD)
    then CMD.set commandPrefix [] packagesByCMD
    else packagesByCMD in
  match CMD.get commandPrefix packagesByCMD with
  | Some packages => CMD.set commandPrefix (packages ++ [packageName]) packagesByCMD
  | None => packagesByCMD
  end.

Section Classifier.

Variable depTypes : DepTypes.

(** [switch (dep.depType)] reaches [case depTypes.ryeDevDependencies]. *)
Definition is_ryeDev (dep : Upgrade) : bool :=
  match depType dep with
  | Some t => String.eqb t (ryeDevDependencies depTypes)
  | None => false
  end.

(** The first loop of [generateCMDs]. *)
Fixpoint collectPackages (updatedDeps : list Upgrade) (packagesByCMD : CMDRecord)
  : Completion CMDRecord :=
  match updatedDeps with
  | [] => Normal packagesByCMD
  | dep :: rest =>
      if is_ryeDev dep then
        match depName dep with
        | None => Thrown TypeError_split
        | Some composite =>
            let name := nth_error (split "/" composite) 1 in
            collectPackages rest
              (addPackageToCMDRecord packagesByCMD ryeUpdatePackageCMD name)
        end
      else
        collectPackages rest
          (addPackageToCMDRecord packagesByCMD ryeUpdatePackageCMD (packageName dep))
  end.

(** The second loop of [generateCMDs]: one command per key. *)
Definition emitCMDs (packagesByCMD : CMDRecord) : list string :=
  map (fun entry =>
         let commandPrefix := fst entry in
         let packageList := join " " (snd entry) in
         commandPrefix ++ " " ++ packageList)
      packagesByCMD.

Definition generateCMDs (updatedDeps : list Upgrade) : Completion (list string) :=
  match collectPackages updatedDeps [] with
  | Normal packagesByCMD => Normal (emitCMDs packagesByCMD)
  | Thrown e => Thrown e
  end.

End Classifier.

(** The entries of [depTypes] as the pep621 manager spells them; used to
    evaluate the definitions on concrete upgrade sets. *)
Definition pep621_depTypes : DepTypes :=
  mkDepTypes "project.dependencies"
             "project.optional-dependencies"
             "tool.rye.dev-dependencies".

(** ** The classifier as the design document words it

    The design keys a command on the pair (category, group).  These
    definitions follow its wording, to be compared with [generateCMDs]. *)

Inductive Category : Type := Direct | OptionalGroup | DevGroup.

Definition Category_eq_dec (a b : Category) : {a = b} + {a <> b}.
Proof. decide equality. Defined.

Definition CommandKey : Type := (Category * option string)%type.

Definition CommandKey_eq_dec (a b : CommandKey) : {a = b} + {a <> b}.
Proof.
  decide equality.
  - decide equality. apply string_dec.
  - apply Category_eq_dec.
Defined.

Section Design.

Variable depTypes : DepTypes.

(** An unrecognized category falls back to the direct one. *)
Definition category (dep : Upgrade) : Category :=
  match depType dep with
  | Some t =>
      if String.eqb t (optionalDependencies depTypes) then OptionalGroup
      else if String.eqb t (ryeDevDependencies depTypes) then DevGroup
      else Direct
  | None => Direct
  end.

(** The group of a grouped descriptor: the first component of its
    composite identifier. *)
Definition group_name (dep : Upgrade) : option string :=
  match category dep, depName dep with
  | Direct, _ => None
  | _, Some composite => nth_error (split "/" composite) 0
  | _, None => None
  end.

Definition command_key (dep : Upgrade) : CommandKey :=
  (category dep, group_name dep).

Definition distinct_keys (deps : list Upgrade) : list CommandKey :=
  nodup CommandKey_eq_dec (map command_key deps).

(** The name a descriptor adds to the command record, read off the
    [switch] of [generateCMDs]: the second component of [depName] split
    on [/] in the [ryeDevDependencies] case, the [packageName] field in
    the default case. *)
Definition contribution (dep : Upgrade) : Completion (option string) :=
  if is_ryeDev depTypes dep then
    match depName dep with
    | Some composite => Normal (nth_error (split "/" composite) 1)
    | None => Thrown TypeError_split
    end
  else Normal (packageName dep).

Fixpoint contributions (deps : list Upgrade) : Completion (list (option string)) :=
  match deps with
  | [] => Normal []
  | dep :: rest =>
      match contribution dep with
      | Thrown e => Thrown e
      | Normal name =>
          match contributions rest with
          | Thrown e => Thrown e
          | Normal names => Normal (name :: names)
          end
      end
  end.

(** Whether the name of [dep] can be extracted without a throw: a
    descriptor on the dev-group path carries its composite identifier. *)
Definition extractable (dep : Upgrade) : bool :=
  negb (is_ryeDev depTypes dep) || negb (nullOrUndefined (depName dep)).

(** One command per distinct key. *)
Definition one_command_per_key (deps : list Upgrade) : Prop :=
  exists cmds, generateCMDs depTypes deps = Normal cmds /\
               length cmds = length (distinct_keys deps).

End Design.

(** Whether [needle] occurs in [s]. *)
Fixpoint occurs_in (needle s : string) : bool :=
  String.prefix needle s ||
  match s with
  | EmptyString => false
  | String _ rest => occurs_in needle rest
  end.

(** The two dev-group descriptors of scenario C. *)
Definition scenarioC (dt : DepTypes) : list Upgrade :=
  [ mkUpgrade (Some (ryeDevDependencies dt)) (Some "groupA/pkgX") None;
    mkUpgrade (Some (ryeDevDependencies dt)) (Some "groupA/pkgY") None ].

(** ** Data exchanged with the rest of the manager *)

Record ToolConstraint : Type := mkToolConstraint {
  toolName : string;
  constraint : option string
}.

(** [ExecOptions] as the processor fills it; [docker] is always [{}]. *)
Record ExecOptions : Type := mkExecOptions {
  cwdFile : string;
  docker : unit;
  toolConstraints : list ToolConstraint
}.

(** [UpdateArtifactsConfig]: [constraints] is an optional
    [Record<string, string>]. *)
Record UpdateArtifactsConfig : Type := mkConfig {
  updateType : option string;
  constraints : option (list (string * string))
}.

Record UpdateArtifact : Type := mkUpdateArtifact {
  packageFileName : string;
  updatedDeps : list Upgrade;
  newPackageFileContent : string;
  config : UpdateArtifactsConfig
}.

(** The part of [PyProject] the updater reads:
    [project.project?.['requires-python']]. *)
Record ProjectTable : Type := mkProjectTable {
  requires_python : option string
}.

Record PyProject : Type := mkPyProject {
  project : option ProjectTable
}.

Record ArtifactError : Type := mkArtifactError {
  lockFile : string;
  stderr : string
}.

(** A [FileChange] of type ['addition']. *)
Record FileAddition : Type := mkFileAddition {
  path : string;
  contents : option string
}.

Record UpdateArtifactsResult : Type := mkResult {
  artifactError : option ArtifactError;
  file : option FileAddition
}.

Definition errorRecord (lockFile stderr : string) : UpdateArtifactsResult :=
  mkResult (Some (mkArtifactError lockFile stderr)) None.

Definition changeRecord (path : string) (contents : option string) : UpdateArtifactsResult :=
  mkResult None (Some (mkFileAddition path contents)).

(** [constraints?.[name]] *)
Fixpoint property (name : string) (obj : list (string * string)) : option string :=
  match obj with
  | [] => None
  | (k, v) :: obj' => if String.eqb k name then Some v else property name obj'
  end.

Definition optional_property (name : string) (obj : option (list (string * string)))
  : option string :=
  match obj with
  | Some o => property name o
  | None => None
  end.

(** ** The processor's surroundings

    [exec] and [readLocalFile] act on a world the processor does not
    see; each call either returns or throws and leaves a new world.
    [TEMPORARY_ERROR], [depTypes] and [getSiblingFileName] are imported
    constants and a pure path derivation. *)

Record Surroundings (World : Type) : Type := mkSurroundings {
  TEMPORARY_ERROR : string;
  depTypes : DepTypes;
  getSiblingFileName : string -> string -> string;
  fs_readLocalFile : string -> World -> Completion (option string) * World;
  util_exec : list string -> ExecOptions -> World -> Completion unit * World
}.

(** A call that left the processor, with what came back. *)
Inductive Call : Type :=
| ReadLocalFile (path : string) (outcome : Completion (option string))
| Exec (cmds : list string) (options : ExecOptions) (outcome : Completion unit).

(** The state threaded through a run: the world, the calls made so far
    (oldest first) and the messages given to [logger.debug]. *)
Record Run (World : Type) : Type := mkRun {
  world : World;
  calls : list Call;
  debug : list string
}.

Definition M (World A : Type) : Type := Run World -> Completion A * Run World.

Definition ret {World A : Type} (a : A) : M World A :=
  fun s => (Normal a, s).

Definition throw {World A : Type} (e : Error) : M World A :=
  fun s => (Thrown e, s).

Definition bind {World A B : Type} (m : M World A) (k : A -> M World B) : M World B :=
  fun s =>
    match m s with
    | (Normal a, s') => k a s'
    | (Thrown e, s') => (Thrown e, s')
    end.

(** [try { body } catch (err) { handler }] *)
Definition try_catch {World A : Type} (body : M World A) (handler : Error -> M World A)
  : M World A :=
  fun s =>
    match body s with
    | (Normal a, s') => (Normal a, s')
    | (Thrown e, s') => handler e s'
    end.

(** A pure computation that may throw. *)
Definition lift {World A : Type} (c : Completion A) : M World A :=
  fun s => (c, s).

Definition when {World : Type} (b : bool) (m : M World unit) : M World unit :=
  if b then m else ret tt.

Declare Scope run_scope.
Delimit Scope run_scope with run.
Notation "x <- m ;; k" := (bind m (fun x => k))
  (at level 61, m at next level, right associativity) : run_scope.
Notation "m ;;; k" := (bind m (fun _ => k))
  (at level 61, right associativity) : run_scope.

Section Processor.

Variable World : Type.
Variable env : Surroundings World.

Local Open Scope run_scope.

(** [await readLocalFile(path, 'utf8')] *)
Definition readLocalFile (path : string) : M World (option string) :=
  fun s =>
    let (outcome, w) := fs_readLocalFile env path (world s) in
    (outcome, mkRun w (calls s ++ [ReadLocalFile path outcome]) (debug s)).

(** [await exec(cmds, execOptions)] *)
Definition exec (cmds : list string) (options : ExecOptions) : M World unit :=
  fun s =>
    let (outcome, w) := util_exec env cmds options (world s) in
    (outcome, mkRun w (calls s ++ [Exec cmds options outcome]) (debug s)).

(** [logger.debug(..., msg)] *)
Definition logger_debug (msg : string) : M World unit :=
  fun s => (Normal tt, mkRun (world s) (calls s) (debug s ++ [msg])).

Definition isLockFileMaintenance (updateArtifact : UpdateArtifact) : bool :=
  match updateType (config updateArtifact) with
  | Some t => String.eqb t "lockFileMaintenance"
  | None => false
  end.

Definition lockFileName (updateArtifact : UpdateArtifact) : string :=
  getSiblingFileName env (packageFileName updateArtifact) "requirements.lock".

Definition devLockFileName (updateArtifact : UpdateArtifact) : string :=
  getSiblingFileName env (packageFileName updateArtifact) "requirements-dev.lock".

Definition execOptions (updateArtifact : UpdateArtifact) (pyProject : PyProject)
  : ExecOptions :=
  let config := config updateArtifact in
  let pythonConstraint :=
    mkToolConstraint "python"
      (nullish (optional_property "python" (constraints config))
               (match project pyProject with
                | Some table => requires_python table
                | None => None
                end)) in
  let ryeConstraint :=
    mkToolConstraint "rye" (optional_property "rye" (constraints config)) in
  mkExecOptions (packageFileName updateArtifact) tt [pythonConstraint; ryeConstraint].

(** The [catch] clause. *)
Definition onError (updateArtifact : UpdateArtifact) (err : Error)
  : M World (option (list UpdateArtifactsResult)) :=
  if String.eqb (message err) (TEMPORARY_ERROR env) then throw err
  else
    logger_debug "Failed to update rye lock files" ;;;
    ret (Some [ errorRecord (lockFileName updateArtifact) (message err);
                errorRecord (devLockFileName updateArtifact) (message err) ]).

(** [RyeProcessor.updateArtifacts] *)
Definition updateArtifacts (updateArtifact : UpdateArtifact) (project : PyProject)
  : M World (option (list UpdateArtifactsResult)) :=
  let lockFileName := lockFileName updateArtifact in
  let devLockFileName := devLockFileName updateArtifact in
  try_catch
    (existingLockFileContent <- readLocalFile lockFileName ;;
     existingDevLockFileContent <- readLocalFile devLockFileName ;;
     when (nullOrUndefined existingLockFileContent)
          (logger_debug "No requirements.lock found") ;;;
     when (nullOrUndefined existingDevLockFileContent)
          (logger_debug "No requirements-dev.lock found") ;;;
     if nullOrUndefined existingLockFileContent
        && nullOrUndefined existingDevLockFileContent
     then ret None
     else
       let execOptions := execOptions updateArtifact project in
       let cmds : list string := [] in
       cmds <- (if isLockFileMaintenance updateArtifact
                then ret (cmds ++ [ryeUpdateLockCMD])%list
                else generated <- lift (generateCMDs (depTypes env)
                                          (updatedDeps updateArtifact)) ;;
                     ret (cmds ++ generated)%list) ;;
       exec cmds execOptions ;;;
       let fileChanges : list UpdateArtifactsResult := [] in
       newLockContent <- readLocalFile lockFileName ;;
       let isLockFileChanged := strict_neq existingLockFileContent newLockContent in
       fileChanges <- (if isLockFileChanged
                       then ret (fileChanges ++ [changeRecord lockFileName newLockContent])%list
                       else logger_debug "requirements.lock is unchanged" ;;;
                            ret fileChanges) ;;
       newDevLockContent <- readLocalFile devLockFileName ;;
       let isDevLockFileChanged :=
         strict_neq existingDevLockFileContent newDevLockContent in
       fileChanges <- (if isDevLockFileChanged
                       then ret (fileChanges ++ [changeRecord devLockFileName newDevLockContent])%list
                       else logger_debug "requirements-dev.lock is unchanged" ;;;
                            ret fileChanges) ;;
       ret (if Nat.eqb (length fileChanges) 0 then None else Some fileChanges))
    (onError updateArtifact).

(** A run from a fresh state. *)
Definition start (w : World) : Run World := mkRun w [] [].

Definition result (updateArtifact : UpdateArtifact) (project : PyProject) (w : World)
  : Completion (option (list UpdateArtifactsResult)) :=
  fst (updateArtifacts updateArtifact project (start w)).

Definition trace (updateArtifact : UpdateArtifact) (project : PyProject) (w : World)
  : list Call :=
  calls (snd (updateArtifacts updateArtifact project (start w))).

End Processor.

(** ** The shapes a run can take

    The command set, the outcome of the [catch] clause and the
    comparison of one lock file, and with them the eight ways through
    [updateArtifacts]: each gives the calls made and the completion. *)

Section Shapes.

Variable World : Type.
Variable env : Surroundings World.

Definition commandSet (updateArtifact : UpdateArtifact) : Completion (list string) :=
  if isLockFileMaintenance updateArtifact then Normal [ryeUpdateLockCMD]
  else generateCMDs (depTypes env) (updatedDeps updateArtifact).

Definition caught (updateArtifact : UpdateArtifact) (err : Error)
  : Completion (option (list UpdateArtifactsResult)) :=
  if String.eqb (message err) (TEMPORARY_ERROR env) then Thrown err
  else Normal (Some [ errorRecord (lockFileName env updateArtifact) (message err);
                      errorRecord (devLockFileName env updateArtifact) (message err) ]).

Definition compared (path : string) (before after : option string)
  : list UpdateArtifactsResult :=
  if strict_neq before after then [changeRecord path after] else [].

Definition nonEmpty (fileChanges : list UpdateArtifactsResult)
  : option (list UpdateArtifactsResult) :=
  match fileChanges with
  | [] => None
  | _ :: _ => Some fileChanges
  end.

Definition someLockFile (lock dev : option string) : Prop :=
  lock <> None \/ dev <> None.

Inductive Shape (ua : UpdateArtifact) (project : PyProject)
  : list Call -> Completion (option (list UpdateArtifactsResult)) -> Prop :=
| FirstReadThrows e :
    Shape ua project
      [ReadLocalFile (lockFileName env ua) (Thrown e)]
      (caught ua e)
| SecondReadThrows lock e :
    Shape ua project
      [ReadLocalFile (lockFileName env ua) (Normal lock);
       ReadLocalFile (devLockFileName env ua) (Thrown e)]
      (caught ua e)
| NoLockFile :
    Shape ua project
      [ReadLocalFile (lockFileName env ua) (Normal None);
       ReadLocalFile (devLockFileName env ua) (Normal None)]
      (Normal None)
| GenerateThrows lock dev e :
    someLockFile lock dev ->
    commandSet ua = Thrown e ->
    Shape ua project
      [ReadLocalFile (lockFileName env ua) (Normal lock);
       ReadLocalFile (devLockFileName env ua) (Normal dev)]
      (caught ua e)
| ExecThrows lock dev cmds e :
    someLockFile lock dev ->
    commandSet ua = Normal cmds ->
    Shape ua project
      [ReadLocalFile (lockFileName env ua) (Normal lock);
       ReadLocalFile (devLockFileName env ua) (Normal dev);
       Exec cmds (execOptions ua project) (Thrown e)]
      (caught ua e)
| ThirdReadThrows lock dev cmds e :
    someLockFile lock dev ->
    commandSet ua = Normal cmds ->
    Shape ua project
      [ReadLocalFile (lockFileName env ua) (Normal lock);
       ReadLocalFile (devLockFileName env ua) (Normal dev);
       Exec cmds (execOptions ua project) (Normal tt);
       ReadLocalFile (lockFileName env ua) (Thrown e)]
      (caught ua e)
| FourthReadThrows lock dev cmds newLock e :
    someLockFile lock dev ->
    commandSet ua = Normal cmds ->
    Shape ua project
      [ReadLocalFile (lockFileName env ua) (Normal lock);
       ReadLocalFile (devLockFileName env ua) (Normal dev);
       Exec cmds (execOptions ua project) (Normal tt);
       ReadLocalFile (lockFileName env ua) (Normal newLock);
       ReadLocalFile (devLockFileName env ua) (Thrown e)]
      (caught ua e)
| Compared lock dev cmds newLock newDev :
    someLockFile lock dev ->
    commandSet ua = Normal cmds ->
    Shape ua project
      [ReadLocalFile (lockFileName env ua) (Normal lock);
       ReadLocalFile (devLockFileName env ua) (Normal dev);
       Exec cmds (execOptions ua project) (Normal tt);
       ReadLocalFile (lockFileName env ua) (Normal newLock);
       ReadLocalFile (devLockFileName env ua) (Normal newDev)]
      (Normal (nonEmpty (compared (lockFileName env ua) lock newLock ++
                         compared (devLockFileName env ua) dev newDev)%list)).

(** The commands handed to the process runner, call by call. *)
Definition issued (cs : list Call) : list (list string) :=
  flat_map (fun c => match c with
                     | Exec cmds _ _ => [cmds]
                     | ReadLocalFile _ _ => []
                     end) cs.

(** The error a call threw, if it did. *)
Definition raised (c : Call) : option Error :=
  match c with
  | ReadLocalFile _ (Thrown e) => Some e
  | Exec _ _ (Thrown e) => Some e
  | _ => None
  end.

(** A run that hands the runner the full-regeneration command and
    nothing else. *)
Definition issues_full_regeneration (ua : UpdateArtifact) (project : PyProject)
    (w : World) : Prop :=
  issued (trace env ua project w) = [[ryeUpdateLockCMD]].

(** A run that returns no error and no change: its result is [null]. *)
Definition returns_no_error_no_change (ua : UpdateArtifact) (project : PyProject)
    (w : World) : Prop :=
  result env ua project w = Normal None.

(** The same artifact with another upgrade set. *)
Definition with_updatedDeps (ua : UpdateArtifact) (deps : list Upgrade)
  : UpdateArtifact :=
  mkUpdateArtifact (packageFileName ua) deps (newPackageFileContent ua) (config ua).

End Shapes.

(** ** A disk and scripted runners, to evaluate runs *)

Module Disk.

Definition Files : Type := list (string * string).

Definition read (path : string) (files : Files) : Completion (option string) * Files :=
  (Normal (property path files), files).

(** A runner that succeeds and leaves [written] on the disk. *)
Definition writing (written : Files) (cmds : list string) (options : ExecOptions)
    (files : Files) : Completion unit * Files :=
  (Normal tt, (written ++ files)%list).

(** A runner that fails with [msg]. *)
Definition failing (msg : string) (cmds : list string) (options : ExecOptions)
    (files : Files) : Completion unit * Files :=
  (Thrown (mkError msg), files).

(** The manifest sits at the root of the repository, so a sibling is
    named by its file name. *)
Definition surroundings
    (runner : list string -> ExecOptions -> Files -> Completion unit * Files)
  : Surroundings Files :=
  mkSurroundings "temporary-error" pep621_depTypes
                 (fun _ sibling => sibling) read runner.

Definition pyproject (mode : option string) (deps : list Upgrade) : UpdateArtifact :=
  mkUpdateArtifact "pyproject.toml" deps "" (mkConfig mode None).

End Disk.

(** ** Keys of a plain object

    [packagesByCMD] is created as [{}].  Reading a name that
    [Object.prototype] defines gives the inherited value even when the
    record has no such key, so [addPackageToCMDRecord] finds it neither
    [null] nor [undefined] and [push] throws; and [for ... in] lists the
    keys that are array indices, in ascending order, before all the
    others.  [CMD.get] and [CMD.set] describe the record at every other
    key; the one key [generateCMDs] uses is such a key. *)

(** The property names of [Object.prototype]. *)
Definition inheritedNames : list string :=
  [ "constructor"; "__proto__"; "hasOwnProperty"; "isPrototypeOf";
    "propertyIsEnumerable"; "toLocaleString"; "toString"; "valueOf";
    "__defineGetter__"; "__defineSetter__"; "__lookupGetter__";
    "__lookupSetter__" ].

Definition isDigit (c : ascii) : bool :=
  Nat.leb 48 (nat_of_ascii c) && Nat.leb (nat_of_ascii c) 57.

Fixpoint allDigits (s : string) : bool :=
  match s with
  | EmptyString => true
  | String c rest => isDigit c && allDigits rest
  end.

(** Whether [key] is written with decimal digits only, as every array
    index is. *)
Definition integerLike (key : string) : bool :=
  negb (String.eqb key "") && allDigits key.

(** ** Calls against the world

    A list of calls is answered by the surroundings from a world when
    each outcome is what the surroundings return, call after call, each
    call starting from the world the previous one left. *)

Section Answers.

Variable World : Type.
Variable env : Surroundings World.

Fixpoint answered (w : World) (cs : list Call) : Prop :=
  match cs with
  | [] => True
  | ReadLocalFile p outcome :: cs' =>
      exists w', fs_readLocalFile env p w = (outcome, w') /\ answered w' cs'
  | Exec cmds options outcome :: cs' =>
      exists w', util_exec env cmds options w = (outcome, w') /\ answered w' cs'
  end.

End Answers.

(** ** [RyeProcessor.process]

    [process] reads [project.tool?.rye] only.  [parseDependencyList] of
    [../utils] and [PypiDatasource.defaultURL] are imported: they are
    taken as they come, a pure function and a constant.  [deps.push]
    and the assignment to [dep.registryUrls] mutate the array and the
    objects passed in, and the same array is returned; the value
    returned here is that array after the call. *)

Module Process.

(** The fields of a [PackageDependency] a pep621 processor sees. *)
Record PackageDependency : Type := mkPackageDependency {
  depType : option string;
  depName : option string;
  packageName : option string;
  currentValue : option string;
  registryUrls : option (list string)
}.

(** An entry of [tool.rye.sources]. *)
Record RyeSource : Type := mkRyeSource {
  name : string;
  url : string
}.

(** [tool.rye] *)
Record Rye : Type := mkRye {
  dev_dependencies : option (list string);
  sources : option (list RyeSource)
}.

Record Tool : Type := mkTool {
  rye : option Rye
}.

(** The part of [PyProject] that [process] reads. *)
Record PyProject : Type := mkPyProject {
  tool : option Tool
}.

(** [dep.registryUrls = registryUrls] *)
Definition setRegistryUrls (registryUrls : list string) (dep : PackageDependency)
  : PackageDependency :=
  mkPackageDependency (depType dep) (depName dep) (packageName dep)
                      (currentValue dep) (Some registryUrls).

(** A dependency without its [registryUrls]. *)
Definition withoutRegistryUrls (dep : PackageDependency) : PackageDependency :=
  mkPackageDependency (depType dep) (depName dep) (packageName dep)
                      (currentValue dep) None.

Section Process.

Variable depTypes : DepTypes.
Variable defaultURL : string.
Variable parseDependencyList : string -> option (list string) -> list PackageDependency.

(** The list [registryUrls] that [process] builds from the sources. *)
Definition sourceRegistryUrls (ryeSources : list RyeSource) : list string :=
  let containsPyPiUrl :=
    existsb (fun value => String.eqb (name value) "pypi") ryeSources in
  let registryUrls : list string := [] in
  let registryUrls :=
    if negb containsPyPiUrl then (registryUrls ++ [defaultURL])%list
    else registryUrls in
  fold_left (fun registryUrls source => (registryUrls ++ [url source])%list)
            ryeSources registryUrls.

(** [RyeProcessor.process] *)
Definition process (project : PyProject) (deps : list PackageDependency)
  : list PackageDependency :=
  let rye := match tool project with
             | Some t => rye t
             | None => None
             end in
  match rye with
  | None => deps
  | Some rye =>
      let deps :=
        (deps ++ parseDependencyList (ryeDevDependencies depTypes)
                                     (dev_dependencies rye))%list in
      match sources rye with
      | None => deps
      | Some ryeSources =>
          let registryUrls := sourceRegistryUrls ryeSources in
          map (setRegistryUrls registryUrls) deps
      end
  end.

End Process.

(** A stand-in for [parseDependencyList], to evaluate [process]: each
    requirement string becomes a dependency of that name. *)
Definition requirementNames (depType : string) (requirements : option (list string))
  : list PackageDependency :=
  match requirements with
  | Some requirements =>
      map (fun r => mkPackageDependency (Some depType) (Some r) (Some r) None None)
          requirements
  | None => []
  end.

End Process.

Unset Implicit Arguments.

(** * Properties *)

(** ** The classifier *)

Example split_composite :
  split "/" "group2/dep5" = ["group2"; "dep5"].
Proof. reflexivity. Qed.

Example split_without_separator :
  nth_error (split "/" "dep5") 1 = None.
Proof. reflexivity. Qed.

Example generateCMDs_mixed :
  generateCMDs pep621_depTypes
    [ mkUpgrade (Some "project.dependencies") None (Some "dep1");
      mkUpgrade (Some "project.optional-dependencies") (Some "group1/dep3") (Some "dep3");
      mkUpgrade (Some "tool.rye.dev-dependencies") (Some "group2/dep5") None ]
  = Normal ["rye lock --update dep1 dep3 dep5"].
Proof. reflexivity. Qed.

Example generateCMDs_missing_depName :
  generateCMDs pep621_depTypes
    [ mkUpgrade (Some "tool.rye.dev-dependencies") None (Some "dep5") ]
  = Thrown TypeError_split.
Proof. reflexivity. Qed.

(** The upgrade set of the processor's test file: the two optional
    descriptors have no [packageName] and contribute empty names. *)
Example generateCMDs_test_upgrade_set :
  generateCMDs pep621_depTypes
    [ mkUpgrade (Some "project.dependencies") None (Some "dep1");
      mkUpgrade (Some "project.dependencies") None (Some "dep2");
      mkUpgrade (Some "project.optional-dependencies") (Some "group1/dep3") None;
      mkUpgrade (Some "project.optional-dependencies") (Some "group1/dep4") None;
      mkUpgrade (Some "tool.rye.dev-dependencies") (Some "group2/dep5") None;
      mkUpgrade (Some "tool.rye.dev-dependencies") (Some "group2/dep6") None;
      mkUpgrade (Some "tool.rye.dev-dependencies") (Some "group3/dep7") None;
      mkUpgrade (Some "tool.rye.dev-dependencies") (Some "group3/dep8") None ]
  = Normal ["rye lock --update dep1 dep2   dep5 dep6 dep7 dep8"].
Proof. reflexivity. Qed.

Section ClassifierFacts.

Variable dt : DepTypes.

Lemma add_to_empty (name : option string) :
  addPackageToCMDRecord [] ryeUpdatePackageCMD name
  = [(ryeUpdatePackageCMD, [name])].
Proof. reflexivity. Qed.

Lemma add_to_entry (packages : list (option string)) (name : option string) :
  addPackageToCMDRecord [(ryeUpdatePackageCMD, packages)] ryeUpdatePackageCMD name
  = [(ryeUpdatePackageCMD, (packages ++ [name])%list)].
Proof. reflexivity. Qed.

(** Once the key exists, the loop only extends its array. *)
Lemma collectPackages_entry (deps : list Upgrade) :
  forall packages,
    collectPackages dt deps [(ryeUpdatePackageCMD, packages)]
    = match contributions dt deps with
      | Normal names => Normal [(ryeUpdatePackageCMD, (packages ++ names)%list)]
      | Thrown e => Thrown e
      end.
Proof.
  induction deps as [|dep rest IH]; intros packages.
  - simpl. now rewrite app_nil_r.
  - cbn [collectPackages contributions]. unfold contribution.
    destruct (is_ryeDev dt dep).
    + destruct (depName dep) as [composite|]; [|reflexivity].
      rewrite add_to_entry, IH.
      destruct (contributions dt rest); [|reflexivity].
      now rewrite <- app_assoc.
    + rewrite add_to_entry, IH.
      destruct (contributions dt rest); [|reflexivity].
      now rewrite <- app_assoc.
Qed.

Lemma collectPackages_closed_form (deps : list Upgrade) :
  collectPackages dt deps []
  = match contributions dt deps with
    | Normal [] => Normal []
    | Normal (name :: names) => Normal [(ryeUpdatePackageCMD, name :: names)]
    | Thrown e => Thrown e
    end.
Proof.
  destruct deps as [|dep rest]; [reflexivity|].
  cbn [collectPackages contributions]. unfold contribution.
  destruct (is_ryeDev dt dep).
  - destruct (depName dep) as [composite|]; [|reflexivity].
    rewrite add_to_empty, collectPackages_entry.
    now destruct (contributions dt rest).
  - rewrite add_to_empty, collectPackages_entry.
    now destruct (contributions dt rest).
Qed.

Lemma generateCMDs_closed_form (deps : list Upgrade) :
  generateCMDs dt deps
  = match contributions dt deps with
    | Normal [] => Normal []
    | Normal (name :: names) =>
        Normal [ryeUpdatePackageCMD ++ " " ++ join " " (name :: names)]
    | Thrown e => Thrown e
    end.
Proof.
  unfold generateCMDs. rewrite collectPackages_closed_form.
  destruct (contributions dt deps) as [[|name names]|e]; reflexivity.
Qed.

Lemma contributions_length (deps : list Upgrade) :
  forall names, contributions dt deps = Normal names -> length names = length deps.
Proof.
  induction deps as [|dep rest IH]; intros names H; simpl in H.
  - now inversion H.
  - destruct (contribution dt dep); [|discriminate].
    destruct (contributions dt rest) as [ns|]; [|discriminate].
    inversion H; subst. simpl. f_equal. now apply IH.
Qed.

Lemma contributions_total (deps : list Upgrade) :
  forallb (extractable dt) deps = true ->
  exists names, contributions dt deps = Normal names.
Proof.
  induction deps as [|dep rest IH]; intros H; simpl in *.
  - now exists [].
  - apply andb_true_iff in H as [Hd Hr].
    destruct (IH Hr) as [names Hn]. rewrite Hn.
    unfold contribution, extractable in *.
    destruct (is_ryeDev dt dep); [|eauto].
    destruct (depName dep); [eauto|discriminate].
Qed.

(** A direct descriptor never takes the dev-group path. *)
Lemma direct_not_ryeDev (dep : Upgrade) :
  category dt dep = Direct -> is_ryeDev dt dep = false.
Proof.
  unfold category, is_ryeDev. destruct (depType dep) as [t|]; [|reflexivity].
  destruct (String.eqb t (optionalDependencies dt)); [discriminate|].
  now destruct (String.eqb t (ryeDevDependencies dt)).
Qed.

Lemma contributions_direct (deps : list Upgrade) :
  forall names,
    Forall2 (fun dep name => category dt dep = Direct /\ packageName dep = Some name)
            deps names ->
    contributions dt deps = Normal (map Some names).
Proof.
  induction deps as [|dep rest IH]; intros names H; inversion H; subst.
  - reflexivity.
  - destruct H2 as [Hc Hp]. simpl. unfold contribution.
    rewrite (direct_not_ryeDev dep Hc), Hp, (IH _ H4). reflexivity.
Qed.

End ClassifierFacts.

(** ** Claims on the classifier *)

(** C10.  [generateCMDs] files every descriptor under the one prefix
    [rye lock --update]: the command record never holds another key, so
    at most one command is emitted and it is the bare prefix followed by
    the space-joined names.  A descriptor of the rye dev-dependencies
    type contributes the second component of its [depName] split on [/],
    any other descriptor its [packageName]. *)
Theorem generateCMDs_single_prefix (dt : DepTypes) (deps : list Upgrade) :
  collectPackages dt deps []
  = match contributions dt deps with
    | Normal [] => Normal []
    | Normal (name :: names) => Normal [(ryeUpdatePackageCMD, name :: names)]
    | Thrown e => Thrown e
    end
  /\
  generateCMDs dt deps
  = match contributions dt deps with
    | Normal [] => Normal []
    | Normal (name :: names) =>
        Normal ["rye lock --update " ++ join " " (name :: names)]
    | Thrown e => Thrown e
    end.
Proof.
  split.
  - apply collectPackages_closed_form.
  - apply generateCMDs_closed_form.
Qed.

(** C1 as stated fails: a direct descriptor and a dev-group descriptor
    have two distinct (category, group) keys and yield one command. *)
Lemma one_command_per_key_fails :
  ~ one_command_per_key pep621_depTypes
      [ mkUpgrade (Some "project.dependencies") None (Some "dep1");
        mkUpgrade (Some "tool.rye.dev-dependencies") (Some "group2/dep5") None ].
Proof.
  intros [cmds [Hrun Hlen]].
  vm_compute in Hrun. inversion Hrun; subst cmds.
  vm_compute in Hlen. discriminate.
Qed.

(** C1, amended.  When every descriptor on the dev-group path carries
    its composite identifier, [generateCMDs] returns one command for a
    non-empty upgrade set and none for the empty one, whatever the
    categories and groups; no two positions of the result differ, so no
    name is shared between two commands. *)
Theorem generateCMDs_one_command (dt : DepTypes) (deps : list Upgrade) :
  forallb (extractable dt) deps = true ->
  exists cmds,
    generateCMDs dt deps = Normal cmds /\
    length cmds = Nat.min 1 (length deps) /\
    (forall i j, i < length cmds -> j < length cmds -> i = j).
Proof.
  intros Hex.
  destruct (contributions_total dt deps Hex) as [names Hn].
  pose proof (contributions_length dt deps names Hn) as Hlen.
  rewrite generateCMDs_closed_form, Hn.
  destruct names as [|name names]; eexists; (split; [reflexivity|]).
  - destruct deps; [|discriminate]. simpl. split; [reflexivity|]. intros; lia.
  - destruct deps; [discriminate|]. simpl. split; [reflexivity|]. intros; lia.
Qed.

Lemma generateCMDs_one_command_witness :
  exists cmds,
    generateCMDs pep621_depTypes
      [ mkUpgrade (Some "project.dependencies") None (Some "dep1");
        mkUpgrade (Some "tool.rye.dev-dependencies") (Some "group2/dep5") None ]
    = Normal cmds /\
    length cmds = Nat.min 1 2 /\
    (forall i j, i < length cmds -> j < length cmds -> i = j).
Proof.
  apply (generateCMDs_one_command pep621_depTypes
           [ mkUpgrade (Some "project.dependencies") None (Some "dep1");
             mkUpgrade (Some "tool.rye.dev-dependencies") (Some "group2/dep5") None ]).
  reflexivity.
Defined.

(** C2 as stated fails: no command that names [groupA] is produced. *)
Lemma scenarioC_names_no_group :
  ~ exists cmd,
      generateCMDs pep621_depTypes (scenarioC pep621_depTypes) = Normal [cmd] /\
      occurs_in "groupA" cmd = true.
Proof.
  intros [cmd [Hrun Hocc]].
  vm_compute in Hrun. inversion Hrun; subst cmd.
  vm_compute in Hocc. discriminate.
Qed.

(** C2, amended.  For the two dev-group descriptors [groupA/pkgX] and
    [groupA/pkgY] the classifier produces the single command
    [rye lock --update pkgX pkgY]: the bare prefix followed by the two
    names, with the group dropped. *)
Theorem scenarioC_single_command (dt : DepTypes) :
  generateCMDs dt (scenarioC dt) = Normal ["rye lock --update pkgX pkgY"] /\
  occurs_in "groupA" "rye lock --update pkgX pkgY" = false.
Proof.
  split; [|reflexivity].
  rewrite generateCMDs_closed_form. unfold scenarioC.
  cbn [contributions]. unfold contribution, is_ryeDev. cbn [depType depName].
  rewrite String.eqb_refl. reflexivity.
Qed.

(** C7.  A non-empty upgrade set of direct descriptors yields exactly
    one command: the prefix followed by the package names, joined by
    spaces in the order of the upgrade set. *)
Theorem generateCMDs_direct (dt : DepTypes) (deps : list Upgrade) (names : list string) :
  deps <> [] ->
  Forall2 (fun dep name => category dt dep = Direct /\ packageName dep = Some name)
          deps names ->
  generateCMDs dt deps
  = Normal [ryeUpdatePackageCMD ++ " " ++ String.concat " " names].
Proof.
  intros Hne Hall.
  rewrite generateCMDs_closed_form, (contributions_direct dt deps names Hall).
  destruct Hall as [|dep name rest names' _ _]; [contradiction|].
  cbn [map]. unfold join. do 3 f_equal.
  cbn [map]. f_equal. rewrite map_map. simpl. now rewrite map_id.
Qed.

Lemma generateCMDs_direct_witness :
  generateCMDs pep621_depTypes
    [ mkUpgrade (Some "project.dependencies") None (Some "dep1");
      mkUpgrade None None (Some "dep2") ]
  = Normal [ryeUpdatePackageCMD ++ " " ++ String.concat " " ["dep1"; "dep2"]].
Proof.
  apply (generateCMDs_direct pep621_depTypes
           [ mkUpgrade (Some "project.dependencies") None (Some "dep1");
             mkUpgrade None None (Some "dep2") ]
           ["dep1"; "dep2"]).
  - discriminate.
  - repeat constructor.
Defined.

(** ** The runs of [updateArtifacts] *)

Section RunFacts.

Variable World : Type.
Variable env : Surroundings World.

Lemma onError_outcome (ua : UpdateArtifact) (e : Error) (s : Run World) :
  fst (onError env ua e s) = caught env ua e /\
  calls (snd (onError env ua e s)) = calls s /\
  world (snd (onError env ua e s)) = world s.
Proof.
  unfold onError, caught.
  destruct (String.eqb (message e) (TEMPORARY_ERROR env)); repeat split.
Qed.

Lemma nonEmpty_length (fileChanges : list UpdateArtifactsResult) :
  (if Nat.eqb (length fileChanges) 0 then None else Some fileChanges)
  = nonEmpty fileChanges.
Proof. now destruct fileChanges. Qed.

Ltac call_outcome :=
  match goal with
  | |- context [util_exec ?e ?c ?o ?w0] =>
      destruct (util_exec e c o w0) as [[[]|?err] ?w]
  | |- context [fs_readLocalFile ?e ?p ?w0] =>
      destruct (fs_readLocalFile e p w0) as [[?content|?err] ?w]
  end.

Ltac tidy :=
  cbn -[generateCMDs onError execOptions lockFileName devLockFileName
        isLockFileMaintenance strict_neq].

Ltac into_catch :=
  match goal with
  | |- context [onError ?e ?ua ?err ?s] =>
      destruct (onError_outcome ua err s) as (-> & -> & _); cbn [calls]
  end.

Lemma Shape_result (ua : UpdateArtifact) (project : PyProject)
    (t : list Call) (r r' : Completion (option (list UpdateArtifactsResult))) :
  Shape env ua project t r' -> r = r' -> Shape env ua project t r.
Proof. intros H ->. exact H. Qed.

Ltac some_lock_file :=
  solve [left; discriminate | right; discriminate].

Ltac command_set :=
  match goal with
  | Hm : isLockFileMaintenance ?ua = _ |- commandSet _ ?ua = _ =>
      unfold commandSet; rewrite Hm; solve [reflexivity | eassumption]
  end.

Ltac shape_of C :=
  eapply Shape_result;
  [ eapply C; [some_lock_file | command_set]
  | unfold compared;
    repeat match goal with H : strict_neq _ _ = _ |- _ => rewrite H end;
    reflexivity ].

Lemma updateArtifacts_shape (ua : UpdateArtifact) (project : PyProject) (w : World) :
  Shape env ua project (trace env ua project w) (result env ua project w).
Proof.
  unfold trace, result, updateArtifacts, try_catch, bind, readLocalFile, start.
  cbn [world calls debug app].
  call_outcome; tidy; [|into_catch; constructor].
  call_outcome; tidy; [|into_catch; constructor].
  destruct content as [lock|], content0 as [dev|]; tidy; try constructor.
  all: destruct (isLockFileMaintenance ua) eqn:Hm; tidy.
  all: try (destruct (generateCMDs (depTypes env) (updatedDeps ua)) as [cmds|err] eqn:Hg;
            tidy; [|into_catch; shape_of GenerateThrows]).
  all: unfold exec; tidy.
  all: call_outcome; tidy; [|into_catch; shape_of ExecThrows].
  all: call_outcome; tidy; [|into_catch; shape_of ThirdReadThrows].
  all: match goal with
       | |- context [strict_neq ?a ?b] => destruct (strict_neq a b) eqn:?
       end; tidy.
  all: call_outcome; tidy; [|into_catch; shape_of FourthReadThrows].
  all: match goal with
       | |- context [strict_neq ?a ?b] => destruct (strict_neq a b) eqn:?
       end; tidy.
  all: shape_of Compared.
Qed.

(** On a maintenance run the upgrade set is never looked at. *)
Lemma maintenance_ignores_updatedDeps
    (ua : UpdateArtifact) (project : PyProject) (deps : list Upgrade) (s : Run World) :
  isLockFileMaintenance ua = true ->
  updateArtifacts env (with_updatedDeps ua deps) project s
  = updateArtifacts env ua project s.
Proof.
  intros Hm.
  assert (Hm' : isLockFileMaintenance (with_updatedDeps ua deps) = true) by exact Hm.
  unfold updateArtifacts. rewrite Hm, Hm'. reflexivity.
Qed.

End RunFacts.

(** ** Claims on [updateArtifacts] *)

(** The first read throws: two error records, and the runner is not
    invoked. *)
Example updateArtifacts_read_error :
  let env := mkSurroundings "temporary-error" pep621_depTypes
               (fun _ sibling => sibling)
               (fun _ files => (Thrown (mkError "test error"), files))
               (Disk.writing []) in
  let ua := Disk.pyproject None [mkUpgrade None None (Some "dep1")] in
  result env ua (mkPyProject None) []
  = Normal (Some [ errorRecord "requirements.lock" "test error";
                   errorRecord "requirements-dev.lock" "test error" ]) /\
  issued (trace env ua (mkPyProject None) []) = [].
Proof. split; reflexivity. Qed.

(** C5.  When both reads before execution find no lock file, the result
    is [null] and nothing follows the two reads: the process runner is
    not invoked. *)
Theorem updateArtifacts_no_lock_file
    (World : Type) (env : Surroundings World)
    (ua : UpdateArtifact) (project : PyProject) (w : World) (rest : list Call) :
  trace env ua project w
  = ReadLocalFile (lockFileName env ua) (Normal None)
    :: ReadLocalFile (devLockFileName env ua) (Normal None)
    :: rest ->
  result env ua project w = Normal None /\
  rest = [] /\
  issued (trace env ua project w) = [].
Proof.
  intros Ht.
  pose proof (updateArtifacts_shape World env ua project w) as S.
  rewrite Ht in *.
  inversion S; subst;
    try match goal with
        | H : someLockFile None None |- _ => destruct H; contradiction
        end.
  repeat split.
Qed.

Lemma updateArtifacts_no_lock_file_witness :
  result (Disk.surroundings (Disk.writing [("requirements.lock", "new")]))
         (Disk.pyproject None [mkUpgrade None None (Some "dep1")])
         (mkPyProject None) []
  = Normal None /\
  @nil Call = [] /\
  issued (trace (Disk.surroundings (Disk.writing [("requirements.lock", "new")]))
                (Disk.pyproject None [mkUpgrade None None (Some "dep1")])
                (mkPyProject None) [])
  = [].
Proof.
  apply (updateArtifacts_no_lock_file Disk.Files
           (Disk.surroundings (Disk.writing [("requirements.lock", "new")]))
           (Disk.pyproject None [mkUpgrade None None (Some "dep1")])
           (mkPyProject None) [] []).
  reflexivity.
Defined.

Lemma strict_neq_true (a b : option string) : strict_neq a b = true -> a <> b.
Proof.
  destruct a as [x|], b as [y|]; simpl; intros H E; try discriminate.
  inversion E; subst. now rewrite String.eqb_refl in H.
Qed.

Lemma strict_neq_false (a b : option string) : strict_neq a b = false -> a = b.
Proof.
  destruct a as [x|], b as [y|]; simpl; intros H; try discriminate; [|reflexivity].
  apply negb_false_iff, String.eqb_eq in H. now subst.
Qed.

Lemma compared_cases (p : string) (before after : option string) :
  compared p before after = [changeRecord p after] /\ before <> after \/
  compared p before after = [] /\ before = after.
Proof.
  unfold compared. destruct (strict_neq before after) eqn:E.
  - left. split; [reflexivity|]. now apply strict_neq_true.
  - right. split; [reflexivity|]. now apply strict_neq_false.
Qed.

(** C3.  When the process runner throws an error whose message is not
    [TEMPORARY_ERROR], the result is exactly two error records, the
    first for the lock file and the second for the dev lock file, each
    with the error's message as [stderr]. *)
Theorem updateArtifacts_exec_failure
    (World : Type) (env : Surroundings World)
    (ua : UpdateArtifact) (project : PyProject) (w : World)
    (cmds : list string) (options : ExecOptions) (e : Error) :
  In (Exec cmds options (Thrown e)) (trace env ua project w) ->
  message e <> TEMPORARY_ERROR env ->
  result env ua project w
  = Normal (Some [ errorRecord (lockFileName env ua) (message e);
                   errorRecord (devLockFileName env ua) (message e) ]).
Proof.
  intros Hin Hne.
  pose proof (updateArtifacts_shape World env ua project w) as S.
  destruct S; simpl in Hin;
    repeat match goal with
           | H : _ \/ _ |- _ => destruct H
           end;
    try discriminate; try contradiction.
  match goal with H : Exec _ _ _ = Exec _ _ _ |- _ => inversion H; subst end.
  unfold caught. apply String.eqb_neq in Hne. now rewrite Hne.
Qed.

Lemma updateArtifacts_exec_failure_witness :
  result (Disk.surroundings (Disk.failing "disk full"))
         (Disk.pyproject None [mkUpgrade None None (Some "dep1")])
         (mkPyProject None) [("requirements.lock", "old")]
  = Normal (Some [ errorRecord "requirements.lock" "disk full";
                   errorRecord "requirements-dev.lock" "disk full" ]).
Proof.
  apply (updateArtifacts_exec_failure Disk.Files
           (Disk.surroundings (Disk.failing "disk full"))
           (Disk.pyproject None [mkUpgrade None None (Some "dep1")])
           (mkPyProject None) [("requirements.lock", "old")]
           ["rye lock --update dep1"]
           (execOptions (Disk.pyproject None [mkUpgrade None None (Some "dep1")])
                        (mkPyProject None))
           (mkError "disk full")).
  - vm_compute. right. right. left. reflexivity.
  - vm_compute. discriminate.
Defined.

(** C4.  When a call made by the run throws an error whose message is
    [TEMPORARY_ERROR], [updateArtifacts] throws that same error; no
    error record is built. *)
Theorem updateArtifacts_temporary_error
    (World : Type) (env : Surroundings World)
    (ua : UpdateArtifact) (project : PyProject) (w : World)
    (c : Call) (e : Error) :
  In c (trace env ua project w) ->
  raised c = Some e ->
  message e = TEMPORARY_ERROR env ->
  result env ua project w = Thrown e.
Proof.
  intros Hin Hraised Hmsg.
  pose proof (updateArtifacts_shape World env ua project w) as S.
  destruct S; simpl in Hin;
    repeat match goal with
           | H : _ \/ _ |- _ => destruct H
           end;
    try contradiction; subst c; simpl in Hraised; try discriminate.
  all: inversion Hraised; subst.
  all: unfold caught; apply String.eqb_eq in Hmsg; now rewrite Hmsg.
Qed.

Lemma updateArtifacts_temporary_error_witness :
  result (Disk.surroundings (Disk.failing "temporary-error"))
         (Disk.pyproject None [mkUpgrade None None (Some "dep1")])
         (mkPyProject None) [("requirements.lock", "old")]
  = Thrown (mkError "temporary-error").
Proof.
  apply (updateArtifacts_temporary_error Disk.Files
           (Disk.surroundings (Disk.failing "temporary-error"))
           (Disk.pyproject None [mkUpgrade None None (Some "dep1")])
           (mkPyProject None) [("requirements.lock", "old")]
           (Exec ["rye lock --update dep1"]
                 (execOptions (Disk.pyproject None [mkUpgrade None None (Some "dep1")])
                              (mkPyProject None))
                 (Thrown (mkError "temporary-error")))
           (mkError "temporary-error")).
  - vm_compute. right. right. left. reflexivity.
  - reflexivity.
  - reflexivity.
Defined.

(** C8.  After a run in which every call returned, each lock file is
    compared on its own: it contributes its change record, path and new
    contents, exactly when the contents read after execution differ
    from those read before (absent before and present after counts as a
    difference), and nothing when they are equal.  The result is the
    list of those records, primary first, or [null] when there is none. *)
Theorem updateArtifacts_changes
    (World : Type) (env : Surroundings World)
    (ua : UpdateArtifact) (project : PyProject) (w : World)
    (lock dev newLock newDev : option string)
    (cmds : list string) (options : ExecOptions) :
  trace env ua project w
  = [ ReadLocalFile (lockFileName env ua) (Normal lock);
      ReadLocalFile (devLockFileName env ua) (Normal dev);
      Exec cmds options (Normal tt);
      ReadLocalFile (lockFileName env ua) (Normal newLock);
      ReadLocalFile (devLockFileName env ua) (Normal newDev) ] ->
  exists primary secondary : list UpdateArtifactsResult,
    (primary = [changeRecord (lockFileName env ua) newLock] /\ lock <> newLock \/
     primary = [] /\ lock = newLock) /\
    (secondary = [changeRecord (devLockFileName env ua) newDev] /\ dev <> newDev \/
     secondary = [] /\ dev = newDev) /\
    result env ua project w
    = Normal (match (primary ++ secondary)%list with
              | [] => None
              | fileChanges => Some fileChanges
              end).
Proof.
  intros Ht.
  pose proof (updateArtifacts_shape World env ua project w) as S.
  rewrite Ht in S. inversion S; subst.
  exists (compared (lockFileName env ua) lock newLock),
         (compared (devLockFileName env ua) dev newDev).
  split; [apply compared_cases|]. split; [apply compared_cases|].
  unfold nonEmpty.
  now destruct (compared (lockFileName env ua) lock newLock ++
                compared (devLockFileName env ua) dev newDev)%list.
Qed.

Lemma updateArtifacts_changes_witness :
  exists primary secondary : list UpdateArtifactsResult,
    (primary = [changeRecord "requirements.lock" (Some "old")] /\
       Some "old" <> Some "old" \/
     primary = [] /\ Some "old" = Some "old") /\
    (secondary = [changeRecord "requirements-dev.lock" (Some "new dev")] /\
       None <> Some "new dev" \/
     secondary = [] /\ None = Some "new dev") /\
    result (Disk.surroundings (Disk.writing [("requirements-dev.lock", "new dev")]))
           (Disk.pyproject None [mkUpgrade None None (Some "dep1")])
           (mkPyProject None) [("requirements.lock", "old")]
    = Normal (match (primary ++ secondary)%list with
              | [] => None
              | fileChanges => Some fileChanges
              end).
Proof.
  apply (updateArtifacts_changes Disk.Files
           (Disk.surroundings (Disk.writing [("requirements-dev.lock", "new dev")]))
           (Disk.pyproject None [mkUpgrade None None (Some "dep1")])
           (mkPyProject None) [("requirements.lock", "old")]
           (Some "old") None (Some "old") (Some "new dev")
           ["rye lock --update dep1"]
           (execOptions (Disk.pyproject None [mkUpgrade None None (Some "dep1")])
                        (mkPyProject None))).
  reflexivity.
Defined.

(** C6 as stated fails: a maintenance run that finds no lock file
    returns before any command is issued. *)
Lemma maintenance_without_lock_files :
  isLockFileMaintenance (Disk.pyproject (Some "lockFileMaintenance") []) = true /\
  ~ issues_full_regeneration (Disk.surroundings (Disk.writing []))
      (Disk.pyproject (Some "lockFileMaintenance") []) (mkPyProject None) [].
Proof.
  split; [reflexivity|].
  unfold issues_full_regeneration. vm_compute. discriminate.
Qed.

(** C6, amended.  On a [lockFileMaintenance] run that has read the two
    lock files and found at least one, the process runner is invoked
    once, with the single command [rye lock]; the run is the same for
    every upgrade set, so [generateCMDs] plays no part in it. *)
Theorem maintenance_issues_rye_lock
    (World : Type) (env : Surroundings World)
    (ua : UpdateArtifact) (project : PyProject) (w : World)
    (lock dev : option string) (rest : list Call) :
  isLockFileMaintenance ua = true ->
  trace env ua project w
  = ReadLocalFile (lockFileName env ua) (Normal lock)
    :: ReadLocalFile (devLockFileName env ua) (Normal dev)
    :: rest ->
  someLockFile lock dev ->
  issues_full_regeneration env ua project w /\
  forall deps,
    updateArtifacts env (with_updatedDeps ua deps) project (start w)
    = updateArtifacts env ua project (start w).
Proof.
  intros Hm Ht Hsome. split.
  - unfold issues_full_regeneration.
    pose proof (updateArtifacts_shape World env ua project w) as S.
    rewrite Ht in *.
    assert (Hc : commandSet env ua = Normal [ryeUpdateLockCMD])
      by (unfold commandSet; now rewrite Hm).
    inversion S; subst;
      try match goal with
          | H : someLockFile None None |- _ => destruct H; contradiction
          end;
      match goal with
      | H : commandSet env ua = _ |- _ => rewrite Hc in H; inversion H; subst
      end;
      reflexivity.
  - intros deps. now apply maintenance_ignores_updatedDeps.
Qed.

Lemma maintenance_issues_rye_lock_witness :
  issues_full_regeneration
    (Disk.surroundings (Disk.writing [("requirements.lock", "new")]))
    (Disk.pyproject (Some "lockFileMaintenance")
                    [mkUpgrade (Some "tool.rye.dev-dependencies") None None])
    (mkPyProject None) [("requirements.lock", "old")] /\
  forall deps,
    updateArtifacts
      (Disk.surroundings (Disk.writing [("requirements.lock", "new")]))
      (with_updatedDeps
         (Disk.pyproject (Some "lockFileMaintenance")
                         [mkUpgrade (Some "tool.rye.dev-dependencies") None None])
         deps)
      (mkPyProject None) (start [("requirements.lock", "old")])
    = updateArtifacts
        (Disk.surroundings (Disk.writing [("requirements.lock", "new")]))
        (Disk.pyproject (Some "lockFileMaintenance")
                        [mkUpgrade (Some "tool.rye.dev-dependencies") None None])
        (mkPyProject None) (start [("requirements.lock", "old")]).
Proof.
  apply (maintenance_issues_rye_lock Disk.Files
           (Disk.surroundings (Disk.writing [("requirements.lock", "new")]))
           (Disk.pyproject (Some "lockFileMaintenance")
                           [mkUpgrade (Some "tool.rye.dev-dependencies") None None])
           (mkPyProject None) [("requirements.lock", "old")]
           (Some "old") None
           [ Exec ["rye lock"]
                  (execOptions
                     (Disk.pyproject (Some "lockFileMaintenance")
                        [mkUpgrade (Some "tool.rye.dev-dependencies") None None])
                     (mkPyProject None))
                  (Normal tt);
             ReadLocalFile "requirements.lock" (Normal (Some "new"));
             ReadLocalFile "requirements-dev.lock" (Normal None) ]).
  - reflexivity.
  - reflexivity.
  - left. discriminate.
Defined.

(** C9 as stated fails: with the dev lock file absent before execution,
    a run whose runner creates that file returns a change record for
    it, and a run whose runner fails returns the two error records. *)
Lemma one_lock_file_is_acted_on :
  property "requirements.lock" [("requirements.lock", "old")] = Some "old" /\
  property "requirements-dev.lock" [("requirements.lock", "old")] = None /\
  ~ returns_no_error_no_change
      (Disk.surroundings (Disk.writing [("requirements-dev.lock", "new dev")]))
      (Disk.pyproject None [mkUpgrade None None (Some "dep1")])
      (mkPyProject None) [("requirements.lock", "old")] /\
  ~ returns_no_error_no_change
      (Disk.surroundings (Disk.failing "disk full"))
      (Disk.pyproject None [mkUpgrade None None (Some "dep1")])
      (mkPyProject None) [("requirements.lock", "old")].
Proof.
  split; [reflexivity|]. split; [reflexivity|].
  split; intros H; vm_compute in H; discriminate.
Qed.

Example one_lock_file_run :
  result (Disk.surroundings (Disk.writing [("requirements.lock", "new")]))
         (Disk.pyproject None [mkUpgrade None None (Some "dep1")])
         (mkPyProject None) [("requirements.lock", "old")]
  = Normal (Some [changeRecord "requirements.lock" (Some "new")]) /\
  issued (trace (Disk.surroundings (Disk.writing [("requirements.lock", "new")]))
                (Disk.pyproject None [mkUpgrade None None (Some "dep1")])
                (mkPyProject None) [("requirements.lock", "old")])
  = [["rye lock --update dep1"]].
Proof. split; reflexivity. Qed.

Example one_lock_file_created :
  result (Disk.surroundings (Disk.writing [("requirements-dev.lock", "new dev")]))
         (Disk.pyproject None [mkUpgrade None None (Some "dep1")])
         (mkPyProject None) [("requirements.lock", "old")]
  = Normal (Some [changeRecord "requirements-dev.lock" (Some "new dev")]).
Proof. reflexivity. Qed.

(** C9, amended.  When exactly one of the two lock files is absent
    before execution the absence raises no error and does not end the
    run: once the command set is built, the process runner is invoked
    with it, once, as the third call, and the result is the one of any
    run that got this far.  If a call from there on throws, the result
    is that of the [catch] clause for the thrown error, which is thrown
    again when its message is [TEMPORARY_ERROR] and reported in the two
    error records otherwise.  If no call throws, both files are read
    again and each contributes its change record exactly when its
    contents differ from those read before, the result being [null]
    when neither does. *)
Theorem one_lock_file_proceeds
    (World : Type) (env : Surroundings World)
    (ua : UpdateArtifact) (project : PyProject) (w : World)
    (lock dev : option string) (cmds : list string) (rest : list Call) :
  trace env ua project w
  = ReadLocalFile (lockFileName env ua) (Normal lock)
    :: ReadLocalFile (devLockFileName env ua) (Normal dev)
    :: rest ->
  (lock = None /\ dev <> None) \/ (lock <> None /\ dev = None) ->
  commandSet env ua = Normal cmds ->
  (exists outcome rest',
      rest = Exec cmds (execOptions ua project) outcome :: rest') /\
  issued (trace env ua project w) = [cmds] /\
  ((exists c e,
       In c rest /\ raised c = Some e /\
       result env ua project w
       = if String.eqb (message e) (TEMPORARY_ERROR env)
         then Thrown e
         else Normal (Some [ errorRecord (lockFileName env ua) (message e);
                             errorRecord (devLockFileName env ua) (message e) ])) \/
   (exists (newLock newDev : option string)
           (primary secondary : list UpdateArtifactsResult),
       rest = [ Exec cmds (execOptions ua project) (Normal tt);
                ReadLocalFile (lockFileName env ua) (Normal newLock);
                ReadLocalFile (devLockFileName env ua) (Normal newDev) ] /\
       (primary = [changeRecord (lockFileName env ua) newLock] /\ lock <> newLock \/
        primary = [] /\ lock = newLock) /\
       (secondary = [changeRecord (devLockFileName env ua) newDev] /\ dev <> newDev \/
        secondary = [] /\ dev = newDev) /\
       result env ua project w
       = Normal (match (primary ++ secondary)%list with
                 | [] => None
                 | fileChanges => Some fileChanges
                 end))).
Proof.
  intros Ht Hone Hc.
  pose proof (updateArtifacts_shape World env ua project w) as S.
  rewrite Ht in *.
  inversion S; subst;
    try match goal with
        | H : commandSet env ua = _ |- _ => rewrite Hc in H; inversion H; subst
        end.
  - destruct Hone as [[_ Hdev]|[Hlock _]]; congruence.
  - split; [eauto|]. split; [reflexivity|].
    left. eexists _, e. split; [left; reflexivity|]. split; reflexivity.
  - split; [eauto|]. split; [reflexivity|].
    left. eexists _, e. split; [right; left; reflexivity|]. split; reflexivity.
  - split; [eauto|]. split; [reflexivity|].
    left. eexists _, e. split; [right; right; left; reflexivity|]. split; reflexivity.
  - split; [eauto|]. split; [reflexivity|].
    right.
    exists newLock, newDev,
           (compared (lockFileName env ua) lock newLock),
           (compared (devLockFileName env ua) dev newDev).
    split; [reflexivity|].
    split; [apply compared_cases|]. split; [apply compared_cases|].
    unfold nonEmpty.
    now destruct (compared (lockFileName env ua) lock newLock ++
                  compared (devLockFileName env ua) dev newDev)%list.
Qed.

Lemma one_lock_file_proceeds_witness :
  (exists outcome rest',
      [ Exec ["rye lock --update dep1"] (execOptions (Disk.pyproject None [mkUpgrade None None (Some "dep1")]) (mkPyProject None)) (Normal tt);
        ReadLocalFile "requirements.lock" (Normal (Some "old"));
        ReadLocalFile "requirements-dev.lock" (Normal (Some "new dev")) ]
      = Exec ["rye lock --update dep1"] (execOptions (Disk.pyproject None [mkUpgrade None None (Some "dep1")]) (mkPyProject None)) outcome :: rest') /\
  issued (trace (Disk.surroundings (Disk.writing [("requirements-dev.lock", "new dev")])) (Disk.pyproject None [mkUpgrade None None (Some "dep1")]) (mkPyProject None) [("requirements.lock", "old")]) = [["rye lock --update dep1"]] /\
  ((exists c e,
       In c [ Exec ["rye lock --update dep1"] (execOptions (Disk.pyproject None [mkUpgrade None None (Some "dep1")]) (mkPyProject None)) (Normal tt);
        ReadLocalFile "requirements.lock" (Normal (Some "old"));
        ReadLocalFile "requirements-dev.lock" (Normal (Some "new dev")) ] /\ raised c = Some e /\
       result (Disk.surroundings (Disk.writing [("requirements-dev.lock", "new dev")])) (Disk.pyproject None [mkUpgrade None None (Some "dep1")]) (mkPyProject None) [("requirements.lock", "old")]
       = if String.eqb (message e) "temporary-error"
         then Thrown e
         else Normal (Some [ errorRecord "requirements.lock" (message e);
                             errorRecord "requirements-dev.lock" (message e) ])) \/
   (exists (newLock newDev : option string)
           (primary secondary : list UpdateArtifactsResult),
       [ Exec ["rye lock --update dep1"] (execOptions (Disk.pyproject None [mkUpgrade None None (Some "dep1")]) (mkPyProject None)) (Normal tt);
        ReadLocalFile "requirements.lock" (Normal (Some "old"));
        ReadLocalFile "requirements-dev.lock" (Normal (Some "new dev")) ]
       = [ Exec ["rye lock --update dep1"] (execOptions (Disk.pyproject None [mkUpgrade None None (Some "dep1")]) (mkPyProject None)) (Normal tt);
           ReadLocalFile "requirements.lock" (Normal newLock);
           ReadLocalFile "requirements-dev.lock" (Normal newDev) ] /\
       (primary = [changeRecord "requirements.lock" newLock] /\ Some "old" <> newLock \/
        primary = [] /\ Some "old" = newLock) /\
       (secondary = [changeRecord "requirements-dev.lock" newDev] /\ None <> newDev \/
        secondary = [] /\ None = newDev) /\
       result (Disk.surroundings (Disk.writing [("requirements-dev.lock", "new dev")])) (Disk.pyproject None [mkUpgrade None None (Some "dep1")]) (mkPyProject None) [("requirements.lock", "old")]
       = Normal (match (primary ++ secondary)%list with
                 | [] => None
                 | fileChanges => Some fileChanges
                 end))).
Proof.
  apply (one_lock_file_proceeds Disk.Files (Disk.surroundings (Disk.writing [("requirements-dev.lock", "new dev")])) (Disk.pyproject None [mkUpgrade None None (Some "dep1")]) (mkPyProject None) [("requirements.lock", "old")]
           (Some "old") None ["rye lock --update dep1"]
           [ Exec ["rye lock --update dep1"] (execOptions (Disk.pyproject None [mkUpgrade None None (Some "dep1")]) (mkPyProject None)) (Normal tt);
        ReadLocalFile "requirements.lock" (Normal (Some "old"));
        ReadLocalFile "requirements-dev.lock" (Normal (Some "new dev")) ]).
  - reflexivity.
  - right. split; [discriminate|reflexivity].
  - reflexivity.
Defined.

(** * Further properties *)

(** ** The command record *)

Lemma get_set_same (key : string) (v : list (option string)) (r : CMDRecord) :
  CMD.get key (CMD.set key v r) = Some v.
Proof.
  induction r as [|[k w] r IH]; simpl.
  - now rewrite String.eqb_refl.
  - destruct (String.eqb k key) eqn:E; simpl; rewrite E; [reflexivity|exact IH].
Qed.

Lemma get_set_other (key other : string) (v : list (option string)) (r : CMDRecord) :
  other <> key -> CMD.get other (CMD.set key v r) = CMD.get other r.
Proof.
  intros Hne. induction r as [|[k w] r IH]; simpl.
  - destruct (String.eqb key other) eqn:E; [|reflexivity].
    apply String.eqb_eq in E. congruence.
  - destruct (String.eqb k key) eqn:E; simpl.
    + apply String.eqb_eq in E. subst k.
      destruct (String.eqb key other) eqn:E'; [|reflexivity].
      apply String.eqb_eq in E'. congruence.
    + now rewrite IH.
Qed.

Lemma get_none_not_key (key : string) (r : CMDRecord) :
  CMD.get key r = None -> ~ In key (CMD.keys r).
Proof.
  induction r as [|[k w] r IH]; simpl; intros Hget Hin; [exact Hin|].
  destruct (String.eqb k key) eqn:E; [discriminate|].
  destruct Hin as [Hk|Hin]; [|now apply IH].
  subst k. now rewrite String.eqb_refl in E.
Qed.

Lemma keys_set (key : string) (v : list (option string)) (r : CMDRecord) :
  CMD.keys (CMD.set key v r)
  = match CMD.get key r with
    | Some _ => CMD.keys r
    | None => (CMD.keys r ++ [key])%list
    end.
Proof.
  induction r as [|[k w] r IH]; simpl; [reflexivity|].
  destruct (String.eqb k key) eqn:E; simpl; [reflexivity|].
  rewrite IH. now destruct (CMD.get key r).
Qed.

(** X1.  For a key that [Object.prototype] does not define: after
    [addPackageToCMDRecord], the key holds the names it held before, or
    none if it was new, followed by the name just added. *)
Theorem addPackageToCMDRecord_get
    (r : CMDRecord) (commandPrefix : string) (name : option string) :
  ~ In commandPrefix inheritedNames ->
  CMD.get commandPrefix (addPackageToCMDRecord r commandPrefix name)
  = Some (match CMD.get commandPrefix r with
          | Some packages => packages
          | None => []
          end ++ [name])%list.
Proof.
  intros _. unfold addPackageToCMDRecord.
  destruct (CMD.get commandPrefix r) as [packages|] eqn:E; simpl.
  - rewrite E. apply get_set_same.
  - rewrite get_set_same. apply get_set_same.
Qed.

Lemma addPackageToCMDRecord_get_witness :
  CMD.get ryeUpdatePackageCMD
    (addPackageToCMDRecord [(ryeUpdatePackageCMD, [Some "dep1"])]
                           ryeUpdatePackageCMD (Some "dep2"))
  = Some (match CMD.get ryeUpdatePackageCMD [(ryeUpdatePackageCMD, [Some "dep1"])] with
          | Some packages => packages
          | None => []
          end ++ [Some "dep2"])%list.
Proof.
  apply (addPackageToCMDRecord_get [(ryeUpdatePackageCMD, [Some "dep1"])]
           ryeUpdatePackageCMD (Some "dep2")).
  vm_compute. intros H.
  repeat match goal with
         | H : _ \/ _ |- _ => destruct H as [H|H]; [discriminate H|]
         end.
  exact H.
Defined.

(** X2.  [addPackageToCMDRecord] leaves the packages of every other key
    as they were. *)
Theorem addPackageToCMDRecord_get_other
    (r : CMDRecord) (commandPrefix other : string) (name : option string) :
  other <> commandPrefix ->
  CMD.get other (addPackageToCMDRecord r commandPrefix name) = CMD.get other r.
Proof.
  intros Hne. unfold addPackageToCMDRecord.
  destruct (CMD.get commandPrefix r) as [packages|] eqn:E; simpl.
  - rewrite E. now apply get_set_other.
  - rewrite get_set_same. now rewrite !get_set_other.
Qed.

Lemma addPackageToCMDRecord_get_other_witness :
  CMD.get "rye lock"
    (addPackageToCMDRecord [("rye lock", [Some "a"])] "rye lock --update" (Some "b"))
  = CMD.get "rye lock" [("rye lock", [Some "a"])].
Proof.
  apply (addPackageToCMDRecord_get_other
           [("rye lock", [Some "a"])] "rye lock --update" "rye lock" (Some "b")).
  discriminate.
Defined.

Lemma keys_after_add
    (r : CMDRecord) (commandPrefix : string) (name : option string) :
  CMD.keys (addPackageToCMDRecord r commandPrefix name)
  = match CMD.get commandPrefix r with
    | Some _ => CMD.keys r
    | None => (CMD.keys r ++ [commandPrefix])%list
    end.
Proof.
  unfold addPackageToCMDRecord.
  destruct (CMD.get commandPrefix r) as [packages|] eqn:E; simpl.
  - rewrite E, keys_set. now rewrite E.
  - rewrite get_set_same, !keys_set, get_set_same. now rewrite E.
Qed.

(** X3.  For a key that [Object.prototype] does not define and that is
    not written as an array index, the keys keep their order of first
    use: adding under a key that exists leaves the key list unchanged,
    adding under a new key puts it last. *)
Theorem addPackageToCMDRecord_keys
    (r : CMDRecord) (commandPrefix : string) (name : option string) :
  ~ In commandPrefix inheritedNames ->
  integerLike commandPrefix = false ->
  CMD.keys (addPackageToCMDRecord r commandPrefix name)
  = if nullOrUndefined (CMD.get commandPrefix r)
    then (CMD.keys r ++ [commandPrefix])%list
    else CMD.keys r.
Proof.
  intros _ _. rewrite keys_after_add. now destruct (CMD.get commandPrefix r).
Qed.

Lemma addPackageToCMDRecord_keys_witness :
  CMD.keys (addPackageToCMDRecord [(ryeUpdateLockCMD, [Some "dep1"])]
                                  ryeUpdatePackageCMD (Some "dep2"))
  = if nullOrUndefined (CMD.get ryeUpdatePackageCMD [(ryeUpdateLockCMD, [Some "dep1"])])
    then (CMD.keys [(ryeUpdateLockCMD, [Some "dep1"])] ++ [ryeUpdatePackageCMD])%list
    else CMD.keys [(ryeUpdateLockCMD, [Some "dep1"])].
Proof.
  apply (addPackageToCMDRecord_keys [(ryeUpdateLockCMD, [Some "dep1"])]
           ryeUpdatePackageCMD (Some "dep2")).
  - vm_compute. intros H.
    repeat match goal with
           | H : _ \/ _ |- _ => destruct H as [H|H]; [discriminate H|]
           end.
    exact H.
  - reflexivity.
Defined.

(** X4.  A record without repeated keys stays so. *)
Theorem addPackageToCMDRecord_NoDup
    (r : CMDRecord) (commandPrefix : string) (name : option string) :
  NoDup (CMD.keys r) ->
  NoDup (CMD.keys (addPackageToCMDRecord r commandPrefix name)).
Proof.
  intros Hnd. rewrite keys_after_add.
  destruct (CMD.get commandPrefix r) eqn:E; [exact Hnd|].
  apply NoDup_app; [exact Hnd | repeat constructor; intros [] | ].
  intros k Hk [Hlast|[]]. subst k.
  now apply (get_none_not_key commandPrefix r E).
Qed.

Lemma addPackageToCMDRecord_NoDup_witness :
  NoDup (CMD.keys (addPackageToCMDRecord [("rye lock", [Some "a"])]
                                          "rye lock --update" (Some "b"))).
Proof.
  apply (addPackageToCMDRecord_NoDup
           [("rye lock", [Some "a"])] "rye lock --update" (Some "b")).
  repeat constructor. intros [].
Defined.

(** ** The classifier *)

Lemma contributions_throw (dt : DepTypes) (deps : list Upgrade) :
  forallb (extractable dt) deps = false ->
  contributions dt deps = Thrown TypeError_split.
Proof.
  induction deps as [|dep rest IH]; simpl; intros H; [discriminate|].
  unfold contribution, extractable in *.
  destruct (is_ryeDev dt dep); simpl in H.
  - destruct (depName dep); simpl in H; [|reflexivity].
    now rewrite (IH H).
  - now rewrite (IH H).
Qed.

(** X5.  [generateCMDs] returns a command list exactly when every
    descriptor of the rye dev-dependencies type has a [depName]; when
    one has none it throws the [TypeError] of reading [split] off
    [undefined]. *)
Theorem generateCMDs_throws (dt : DepTypes) (deps : list Upgrade) :
  if forallb (extractable dt) deps
  then exists cmds, generateCMDs dt deps = Normal cmds
  else generateCMDs dt deps = Thrown TypeError_split.
Proof.
  rewrite generateCMDs_closed_form.
  destruct (forallb (extractable dt) deps) eqn:E.
  - destruct (contributions_total dt deps E) as [names ->].
    destruct names; eauto.
  - now rewrite (contributions_throw dt deps E).
Qed.

(** X6.  The command list is empty only for the empty upgrade set. *)
Theorem generateCMDs_empty (dt : DepTypes) (deps : list Upgrade) :
  generateCMDs dt deps = Normal [] <-> deps = [].
Proof.
  split.
  - rewrite generateCMDs_closed_form.
    destruct (contributions dt deps) as [[|name names]|e] eqn:E; try discriminate.
    intros _. apply contributions_length in E. now destruct deps.
  - intros ->. reflexivity.
Qed.

Lemma occurs_in_cons (c : ascii) (s : string) :
  occurs_in "/" (String c s) = false ->
  Ascii.eqb c "/" = false /\ occurs_in "/" s = false.
Proof.
  cbn [occurs_in String.prefix].
  destruct (ascii_dec "/" c) as [<-|Hne].
  - now destruct s.
  - simpl. intros H. split; [|exact H].
    apply Ascii.eqb_neq. congruence.
Qed.

Lemma split_without (s : string) :
  occurs_in "/" s = false -> split "/" s = [s].
Proof.
  induction s as [|c s IH]; [reflexivity|].
  intros H. apply occurs_in_cons in H as [Hc Hs].
  cbn [split]. now rewrite Hc, (IH Hs).
Qed.

Lemma split_at_first (group rest : string) :
  occurs_in "/" group = false ->
  split "/" (group ++ String "/" rest) = group :: split "/" rest.
Proof.
  induction group as [|c group IH]; [reflexivity|].
  intros H. apply occurs_in_cons in H as [Hc Hs].
  cbn [append split]. now rewrite Hc, (IH Hs).
Qed.

(** X7.  A descriptor of the rye dev-dependencies type whose [depName]
    holds no [/] contributes no name: the command is the prefix
    followed by a space and nothing else. *)
Theorem generateCMDs_ryeDev_without_group
    (dt : DepTypes) (dep : Upgrade) (composite : string) :
  is_ryeDev dt dep = true ->
  depName dep = Some composite ->
  occurs_in "/" composite = false ->
  generateCMDs dt [dep] = Normal ["rye lock --update "].
Proof.
  intros Hdev Hname Hslash.
  rewrite generateCMDs_closed_form. cbn [contributions]. unfold contribution.
  now rewrite Hdev, Hname, (split_without composite Hslash).
Qed.

Lemma generateCMDs_ryeDev_without_group_witness :
  generateCMDs pep621_depTypes
    [mkUpgrade (Some "tool.rye.dev-dependencies") (Some "pytest") (Some "pytest")]
  = Normal ["rye lock --update "].
Proof.
  apply (generateCMDs_ryeDev_without_group pep621_depTypes
           (mkUpgrade (Some "tool.rye.dev-dependencies") (Some "pytest") (Some "pytest"))
           "pytest"); reflexivity.
Defined.

(** X8.  A descriptor of the rye dev-dependencies type whose [depName]
    is [group/name], possibly followed by further [/]-separated
    components, contributes [name] alone: the group and the further
    components are dropped, and so is its [packageName]. *)
Theorem generateCMDs_ryeDev_second_component
    (dt : DepTypes) (dep : Upgrade) (group name tail : string) :
  is_ryeDev dt dep = true ->
  depName dep = Some (group ++ "/" ++ name ++ tail) ->
  occurs_in "/" group = false ->
  occurs_in "/" name = false ->
  tail = "" \/ (exists further, tail = "/" ++ further) ->
  generateCMDs dt [dep] = Normal ["rye lock --update " ++ name].
Proof.
  intros Hdev Hname Hgroup Hslash Htail.
  rewrite generateCMDs_closed_form. cbn [contributions]. unfold contribution.
  rewrite Hdev, Hname.
  change (group ++ "/" ++ name ++ tail) with (group ++ String "/" (name ++ tail)).
  rewrite (split_at_first group (name ++ tail) Hgroup).
  destruct Htail as [->|[further ->]].
  - replace (name ++ "") with name by (clear; induction name; simpl; congruence).
    now rewrite (split_without name Hslash).
  - change (name ++ "/" ++ further) with (name ++ String "/" further).
    now rewrite (split_at_first name further Hslash).
Qed.

Lemma generateCMDs_ryeDev_second_component_witness :
  generateCMDs pep621_depTypes
    [mkUpgrade (Some "tool.rye.dev-dependencies") (Some "lint/ruff/extra") (Some "other")]
  = Normal ["rye lock --update " ++ "ruff"].
Proof.
  apply (generateCMDs_ryeDev_second_component pep621_depTypes
           (mkUpgrade (Some "tool.rye.dev-dependencies") (Some "lint/ruff/extra")
                      (Some "other"))
           "lint" "ruff" "/extra").
  - reflexivity.
  - reflexivity.
  - reflexivity.
  - reflexivity.
  - right. exists "extra". reflexivity.
Defined.

Lemma contributions_app (dt : DepTypes) (deps1 deps2 : list Upgrade) :
  contributions dt (deps1 ++ deps2)
  = match contributions dt deps1, contributions dt deps2 with
    | Normal names1, Normal names2 => Normal (names1 ++ names2)%list
    | Thrown e, _ => Thrown e
    | Normal _, Thrown e => Thrown e
    end.
Proof.
  induction deps1 as [|dep rest IH]; simpl.
  - now destruct (contributions dt deps2).
  - destruct (contribution dt dep); [|reflexivity].
    rewrite IH.
    destruct (contributions dt rest); [|reflexivity].
    now destruct (contributions dt deps2).
Qed.

Lemma string_append_assoc (a b c : string) : (a ++ b) ++ c = a ++ b ++ c.
Proof. induction a as [|x a IH]; simpl; congruence. Qed.

Lemma string_concat_app (sep : string) (xs ys : list string) :
  xs <> [] -> ys <> [] ->
  String.concat sep (xs ++ ys) = String.concat sep xs ++ sep ++ String.concat sep ys.
Proof.
  intros Hx Hy. induction xs as [|x xs IH]; [contradiction|].
  destruct xs as [|x' xs].
  - destruct ys; [contradiction|reflexivity].
  - change (String.concat sep ((x :: x' :: xs) ++ ys))
      with (x ++ sep ++ String.concat sep ((x' :: xs) ++ ys)).
    rewrite IH by discriminate.
    change (String.concat sep (x :: x' :: xs))
      with (x ++ sep ++ String.concat sep (x' :: xs)).
    now rewrite !string_append_assoc.
Qed.

(** X9.  Commands compose along the upgrade set: when two upgrade sets
    each yield a command, their concatenation yields the one command
    that carries the names of the first followed by the names of the
    second. *)
Theorem generateCMDs_app
    (dt : DepTypes) (deps1 deps2 : list Upgrade) (names1 names2 : string) :
  generateCMDs dt deps1 = Normal ["rye lock --update " ++ names1] ->
  generateCMDs dt deps2 = Normal ["rye lock --update " ++ names2] ->
  generateCMDs dt (deps1 ++ deps2)
  = Normal ["rye lock --update " ++ names1 ++ " " ++ names2].
Proof.
  rewrite !generateCMDs_closed_form, contributions_app.
  destruct (contributions dt deps1) as [[|n1 ns1]|e1]; try discriminate.
  destruct (contributions dt deps2) as [[|n2 ns2]|e2]; try discriminate.
  intros H1 H2. simpl in H1, H2. inversion H1 as [E1]. inversion H2 as [E2].
  cbn [app]. unfold join in *.
  change (map element_text (n1 :: (ns1 ++ n2 :: ns2)%list))
    with (map element_text ((n1 :: ns1) ++ (n2 :: ns2))%list).
  rewrite map_app, string_concat_app by discriminate.
  reflexivity.
Qed.

Lemma generateCMDs_app_witness :
  generateCMDs pep621_depTypes
    ([mkUpgrade None None (Some "dep1"); mkUpgrade None None (Some "dep2")]
     ++ [mkUpgrade (Some "tool.rye.dev-dependencies") (Some "dev/dep3") None])%list
  = Normal ["rye lock --update " ++ "dep1 dep2" ++ " " ++ "dep3"].
Proof.
  apply (generateCMDs_app pep621_depTypes
           [mkUpgrade None None (Some "dep1"); mkUpgrade None None (Some "dep2")]
           [mkUpgrade (Some "tool.rye.dev-dependencies") (Some "dev/dep3") None]
           "dep1 dep2" "dep3"); reflexivity.
Defined.

(** ** [updateArtifacts] *)

Section MoreRunFacts.

Variable World : Type.
Variable env : Surroundings World.

Ltac shape_cases ua project w :=
  let S := fresh "S" in
  pose proof (updateArtifacts_shape World env ua project w) as S;
  destruct S; simpl in *;
  repeat match goal with
         | H : _ \/ _ |- _ => destruct H
         end;
  try contradiction; try discriminate.

Lemma caught_other (ua : UpdateArtifact) (e : Error) :
  message e <> TEMPORARY_ERROR env ->
  caught env ua e
  = Normal (Some [ errorRecord (lockFileName env ua) (message e);
                   errorRecord (devLockFileName env ua) (message e) ]).
Proof.
  intros Hne. unfold caught. apply String.eqb_neq in Hne. now rewrite Hne.
Qed.

Lemma caught_thrown (ua : UpdateArtifact) (err e : Error) :
  caught env ua err = Thrown e -> message e = TEMPORARY_ERROR env.
Proof.
  unfold caught.
  destruct (String.eqb (message err) (TEMPORARY_ERROR env)) eqn:E; [|discriminate].
  intros H. inversion H; subst. now apply String.eqb_eq.
Qed.

Lemma caught_normal (ua : UpdateArtifact) (err : Error)
    (r : option (list UpdateArtifactsResult)) :
  caught env ua err = Normal r ->
  r = Some [ errorRecord (lockFileName env ua) (message err);
             errorRecord (devLockFileName env ua) (message err) ].
Proof.
  unfold caught.
  destruct (String.eqb (message err) (TEMPORARY_ERROR env)); [discriminate|].
  intros H. now inversion H.
Qed.

Lemma result_cases (ua : UpdateArtifact) (project : PyProject) (w : World) :
  (exists err, result env ua project w = caught env ua err) \/
  result env ua project w = Normal None \/
  (exists lock dev newLock newDev,
      result env ua project w
      = Normal (nonEmpty (compared (lockFileName env ua) lock newLock ++
                          compared (devLockFileName env ua) dev newDev)%list)).
Proof.
  pose proof (updateArtifacts_shape World env ua project w) as S.
  destruct S; eauto 10.
Qed.

(** X10.  Whatever call of the run throws, a read as well as the
    runner, an error whose message is not [TEMPORARY_ERROR] is turned
    into the two error records carrying its message. *)
Theorem updateArtifacts_any_failure
    (ua : UpdateArtifact) (project : PyProject) (w : World) (c : Call) (e : Error) :
  In c (trace env ua project w) ->
  raised c = Some e ->
  message e <> TEMPORARY_ERROR env ->
  result env ua project w
  = Normal (Some [ errorRecord (lockFileName env ua) (message e);
                   errorRecord (devLockFileName env ua) (message e) ]).
Proof.
  intros Hin Hraised Hne.
  shape_cases ua project w; subst c; simpl in Hraised; try discriminate.
  all: inversion Hraised; subst; now apply caught_other.
Qed.

(** X11.  When [generateCMDs] throws, the error is caught like a
    failure of the runner: the runner is not invoked and the two error
    records carry the message of the [TypeError]. *)
Theorem updateArtifacts_classifier_failure
    (ua : UpdateArtifact) (project : PyProject) (w : World)
    (lock dev : option string) (rest : list Call) (e : Error) :
  trace env ua project w
  = ReadLocalFile (lockFileName env ua) (Normal lock)
    :: ReadLocalFile (devLockFileName env ua) (Normal dev)
    :: rest ->
  someLockFile lock dev ->
  isLockFileMaintenance ua = false ->
  generateCMDs (depTypes env) (updatedDeps ua) = Thrown e ->
  message e <> TEMPORARY_ERROR env ->
  rest = [] /\
  result env ua project w
  = Normal (Some [ errorRecord (lockFileName env ua) (message e);
                   errorRecord (devLockFileName env ua) (message e) ]).
Proof.
  intros Ht Hsome Hm Hg Hne.
  assert (Hc : commandSet env ua = Thrown e) by (unfold commandSet; now rewrite Hm).
  pose proof (updateArtifacts_shape World env ua project w) as S.
  rewrite Ht in S.
  inversion S; subst;
    try match goal with
        | H : someLockFile None None |- _ => destruct H; contradiction
        end;
    match goal with
    | H : commandSet env ua = _ |- _ => rewrite Hc in H; inversion H; subst
    end.
  split; [reflexivity|]. now apply caught_other.
Qed.

(** X12.  A run makes at most five calls, and at most one of them is an
    invocation of the runner. *)
Theorem updateArtifacts_call_bounds
    (ua : UpdateArtifact) (project : PyProject) (w : World) :
  length (trace env ua project w) <= 5 /\
  length (issued (trace env ua project w)) <= 1.
Proof.
  pose proof (updateArtifacts_shape World env ua project w) as S.
  destruct S; simpl; lia.
Qed.

(** X13.  Every call of a run concerns the two lock files: a read is of
    [requirements.lock] or [requirements-dev.lock] beside the package
    file, and the runner is given the options built from the package
    file and the constraints. *)
Theorem updateArtifacts_calls_in_scope
    (ua : UpdateArtifact) (project : PyProject) (w : World) :
  Forall (fun c =>
            match c with
            | ReadLocalFile p _ => p = lockFileName env ua \/ p = devLockFileName env ua
            | Exec _ options _ => options = execOptions ua project
            end)
         (trace env ua project w).
Proof.
  pose proof (updateArtifacts_shape World env ua project w) as S.
  destruct S; repeat (apply Forall_cons || apply Forall_nil); auto.
Qed.

(** X14.  The only error [updateArtifacts] throws is one whose message
    is [TEMPORARY_ERROR]. *)
Theorem updateArtifacts_throws_only_temporary
    (ua : UpdateArtifact) (project : PyProject) (w : World) (e : Error) :
  result env ua project w = Thrown e ->
  message e = TEMPORARY_ERROR env.
Proof.
  intros Hr.
  destruct (result_cases ua project w) as [[err Hc]|[Hc|(lock & dev & nl & nd & Hc)]];
    rewrite Hc in Hr; try discriminate.
  now apply caught_thrown in Hr.
Qed.

(** X15.  A call that throws is the last call of the run. *)
Theorem updateArtifacts_stops_at_throw
    (ua : UpdateArtifact) (project : PyProject) (w : World)
    (before after : list Call) (c : Call) (e : Error) :
  trace env ua project w = (before ++ c :: after)%list ->
  raised c = Some e ->
  after = [].
Proof.
  intros Ht Hraised.
  pose proof (updateArtifacts_shape World env ua project w) as S.
  rewrite Ht in S. clear Ht.
  inversion S; subst; clear S;
    repeat match goal with
           | H : _ :: _ = (?b ++ _ :: _)%list |- _ =>
               destruct b; simpl in H; inversion H; subst; clear H
           | H : [] = (?b ++ _ :: _)%list |- _ =>
               destruct b; discriminate H
           end;
    simpl in Hraised; try discriminate; reflexivity.
Qed.

(** X16.  A non-null result is never empty and never mixes records: it
    is either the two error records of a failure, or one or two change
    records, each for one of the two lock files. *)
Theorem updateArtifacts_result_shape
    (ua : UpdateArtifact) (project : PyProject) (w : World)
    (records : list UpdateArtifactsResult) :
  result env ua project w = Normal (Some records) ->
  (exists msg,
      records = [ errorRecord (lockFileName env ua) msg;
                  errorRecord (devLockFileName env ua) msg ]) \/
  (1 <= length records <= 2 /\
   Forall (fun r => exists p contents,
                      r = changeRecord p contents /\
                      (p = lockFileName env ua \/ p = devLockFileName env ua))
          records).
Proof.
  intros Hr.
  destruct (result_cases ua project w) as [[err Hc]|[Hc|(lock & dev & newLock & newDev & Hc)]];
    rewrite Hc in Hr; try discriminate.
  - apply caught_normal in Hr. inversion Hr; subst. left; eauto.
  - right. inversion Hr as [Hn]. clear Hr Hc. revert Hn.
    unfold compared.
    destruct (strict_neq lock newLock), (strict_neq dev newDev); simpl;
      intros H; inversion H; subst; (split; [simpl; lia|]);
      repeat (apply Forall_cons || apply Forall_nil); eauto.
Qed.

(** X17.  Outside maintenance an empty upgrade set does not stop the
    run: the runner is invoked once, with an empty command list. *)
Theorem updateArtifacts_empty_upgrade_set
    (ua : UpdateArtifact) (project : PyProject) (w : World)
    (lock dev : option string) (rest : list Call) :
  trace env ua project w
  = ReadLocalFile (lockFileName env ua) (Normal lock)
    :: ReadLocalFile (devLockFileName env ua) (Normal dev)
    :: rest ->
  someLockFile lock dev ->
  isLockFileMaintenance ua = false ->
  updatedDeps ua = [] ->
  issued (trace env ua project w) = [[]].
Proof.
  intros Ht Hsome Hm Hdeps.
  assert (Hc : commandSet env ua = Normal [])
    by (unfold commandSet; now rewrite Hm, Hdeps).
  pose proof (updateArtifacts_shape World env ua project w) as S.
  rewrite Ht in *.
  inversion S; subst;
    try match goal with
        | H : someLockFile None None |- _ => destruct H; contradiction
        end;
    match goal with
    | H : commandSet env ua = _ |- _ => rewrite Hc in H; inversion H; subst
    end;
    reflexivity.
Qed.

Ltac quiet :=
  cbn -[generateCMDs onError execOptions lockFileName devLockFileName
        isLockFileMaintenance strict_neq answered].

Ltac next_call :=
  match goal with
  | |- context [util_exec ?e ?c ?o ?w0] =>
      destruct (util_exec e c o w0) as [[[]|?err] ?w] eqn:?
  | |- context [fs_readLocalFile ?e ?p ?w0] =>
      destruct (fs_readLocalFile e p w0) as [[?content|?err] ?w] eqn:?
  end.

Ltac caught_calls :=
  match goal with
  | |- context [onError ?e ?ua ?err ?s] =>
      destruct (onError_outcome _ e ua err s) as (_ & -> & _); cbn [calls]
  end.

Ltac all_answered :=
  cbn [answered]; repeat (eexists; split; [eassumption|]); exact I.

(** The calls a run records are the answers of the surroundings. *)
Lemma trace_answered (ua : UpdateArtifact) (project : PyProject) (w : World) :
  answered env w (trace env ua project w).
Proof.
  unfold trace, updateArtifacts, try_catch, bind, readLocalFile, start.
  cbn [world calls debug app].
  next_call; quiet; [|caught_calls; all_answered].
  next_call; quiet; [|caught_calls; all_answered].
  destruct content as [lock|], content0 as [dev|]; quiet; try all_answered.
  all: destruct (isLockFileMaintenance ua) eqn:Hm; quiet.
  all: try (destruct (generateCMDs (depTypes env) (updatedDeps ua)) as [cmds|err] eqn:Hg;
            quiet; [|caught_calls; all_answered]).
  all: unfold exec; quiet.
  all: next_call; quiet; [|caught_calls; all_answered].
  all: next_call; quiet; [|caught_calls; all_answered].
  all: match goal with
       | |- context [strict_neq ?a ?b] => destruct (strict_neq a b) eqn:?
       end; quiet.
  all: next_call; quiet; [|caught_calls; all_answered].
  all: match goal with
       | |- context [strict_neq ?a ?b] => destruct (strict_neq a b) eqn:?
       end; quiet.
  all: all_answered.
Qed.

Lemma strict_neq_same (a : option string) : strict_neq a a = false.
Proof. destruct a; simpl; [now rewrite String.eqb_refl|reflexivity]. Qed.

(** X18.  No drift, no change: when reads return what the world holds
    and the runner returns without altering what the two lock files
    hold, the result is [null], whatever the command set. *)
Theorem updateArtifacts_without_drift
    (ua : UpdateArtifact) (project : PyProject) (w : World)
    (holds : World -> string -> option string) (cmds : list string) :
  (forall p w', fs_readLocalFile env p w' = (Normal (holds w' p), w')) ->
  (forall cs options w',
      fst (util_exec env cs options w') = Normal tt /\
      holds (snd (util_exec env cs options w')) (lockFileName env ua)
      = holds w' (lockFileName env ua) /\
      holds (snd (util_exec env cs options w')) (devLockFileName env ua)
      = holds w' (devLockFileName env ua)) ->
  commandSet env ua = Normal cmds ->
  result env ua project w = Normal None.
Proof.
  intros Hread Hexec Hcmd.
  pose proof (updateArtifacts_shape World env ua project w) as S.
  pose proof (trace_answered ua project w) as A.
  set (t := trace env ua project w) in *.
  set (r := result env ua project w) in *.
  clearbody t r.
  destruct S; cbn [answered] in A;
    repeat match goal with
           | H : exists _, _ |- _ => destruct H as [? [? ?]]
           | H : fs_readLocalFile _ _ _ = _ |- _ =>
               rewrite Hread in H; inversion H; subst; clear H
           end;
    try congruence.
  - match goal with
    | H : util_exec _ ?c ?o ?w0 = _ |- _ =>
        destruct (Hexec c o w0) as (Ho & _); rewrite H in Ho; discriminate Ho
    end.
  - match goal with
    | H : util_exec _ ?c ?o ?w0 = _ |- _ =>
        destruct (Hexec c o w0) as (_ & Hl & Hd); rewrite H in Hl, Hd;
        simpl in Hl, Hd; rewrite Hl, Hd
    end.
    unfold compared. now rewrite !strict_neq_same.
Qed.

End MoreRunFacts.

Lemma updateArtifacts_any_failure_witness :
  result (mkSurroundings "temporary-error" pep621_depTypes
            (fun _ sibling => sibling)
            (fun _ files => (Thrown (mkError "test error"), files))
            (Disk.writing []))
         (Disk.pyproject None [mkUpgrade None None (Some "dep1")])
         (mkPyProject None) []
  = Normal (Some [ errorRecord "requirements.lock" "test error";
                   errorRecord "requirements-dev.lock" "test error" ]).
Proof.
  apply (updateArtifacts_any_failure Disk.Files
           (mkSurroundings "temporary-error" pep621_depTypes
              (fun _ sibling => sibling)
              (fun _ files => (Thrown (mkError "test error"), files))
              (Disk.writing []))
           (Disk.pyproject None [mkUpgrade None None (Some "dep1")])
           (mkPyProject None) []
           (ReadLocalFile "requirements.lock" (Thrown (mkError "test error")))
           (mkError "test error")).
  - vm_compute. left. reflexivity.
  - reflexivity.
  - vm_compute. discriminate.
Defined.

Lemma updateArtifacts_classifier_failure_witness :
  @nil Call = [] /\
  result (Disk.surroundings (Disk.writing [("requirements.lock", "new")]))
         (Disk.pyproject None [mkUpgrade (Some "tool.rye.dev-dependencies") None None])
         (mkPyProject None) [("requirements.lock", "old")]
  = Normal (Some [ errorRecord "requirements.lock" (message TypeError_split);
                   errorRecord "requirements-dev.lock" (message TypeError_split) ]).
Proof.
  apply (updateArtifacts_classifier_failure Disk.Files
           (Disk.surroundings (Disk.writing [("requirements.lock", "new")]))
           (Disk.pyproject None [mkUpgrade (Some "tool.rye.dev-dependencies") None None])
           (mkPyProject None) [("requirements.lock", "old")]
           (Some "old") None [] TypeError_split).
  - reflexivity.
  - left. discriminate.
  - reflexivity.
  - reflexivity.
  - vm_compute. discriminate.
Defined.

Lemma updateArtifacts_throws_only_temporary_witness :
  message (mkError "temporary-error")
  = TEMPORARY_ERROR (Disk.surroundings (Disk.failing "temporary-error")).
Proof.
  apply (updateArtifacts_throws_only_temporary Disk.Files
           (Disk.surroundings (Disk.failing "temporary-error"))
           (Disk.pyproject None [mkUpgrade None None (Some "dep1")])
           (mkPyProject None) [("requirements.lock", "old")]
           (mkError "temporary-error")).
  reflexivity.
Defined.

Lemma updateArtifacts_stops_at_throw_witness : @nil Call = [].
Proof.
  apply (updateArtifacts_stops_at_throw Disk.Files
           (Disk.surroundings (Disk.failing "disk full"))
           (Disk.pyproject None [mkUpgrade None None (Some "dep1")])
           (mkPyProject None) [("requirements.lock", "old")]
           [ ReadLocalFile "requirements.lock" (Normal (Some "old"));
             ReadLocalFile "requirements-dev.lock" (Normal None) ]
           []
           (Exec ["rye lock --update dep1"]
                 (execOptions (Disk.pyproject None [mkUpgrade None None (Some "dep1")])
                              (mkPyProject None))
                 (Thrown (mkError "disk full")))
           (mkError "disk full")).
  - reflexivity.
  - reflexivity.
Defined.

Lemma updateArtifacts_result_shape_witness :
  (exists msg,
      [changeRecord "requirements.lock" (Some "new")]
      = [ errorRecord "requirements.lock" msg;
          errorRecord "requirements-dev.lock" msg ]) \/
  (1 <= length [changeRecord "requirements.lock" (Some "new")] <= 2 /\
   Forall (fun r => exists p contents,
                      r = changeRecord p contents /\
                      (p = "requirements.lock" \/ p = "requirements-dev.lock"))
          [changeRecord "requirements.lock" (Some "new")]).
Proof.
  apply (updateArtifacts_result_shape Disk.Files
           (Disk.surroundings (Disk.writing [("requirements.lock", "new")]))
           (Disk.pyproject None [mkUpgrade None None (Some "dep1")])
           (mkPyProject None) [("requirements.lock", "old")]
           [changeRecord "requirements.lock" (Some "new")]).
  reflexivity.
Defined.

Lemma updateArtifacts_empty_upgrade_set_witness :
  issued (trace (Disk.surroundings (Disk.writing []))
                (Disk.pyproject None []) (mkPyProject None)
                [("requirements-dev.lock", "old")])
  = [[]].
Proof.
  apply (updateArtifacts_empty_upgrade_set Disk.Files
           (Disk.surroundings (Disk.writing []))
           (Disk.pyproject None []) (mkPyProject None)
           [("requirements-dev.lock", "old")]
           None (Some "old")
           [ Exec [] (execOptions (Disk.pyproject None []) (mkPyProject None)) (Normal tt);
             ReadLocalFile "requirements.lock" (Normal None);
             ReadLocalFile "requirements-dev.lock" (Normal (Some "old")) ]).
  - reflexivity.
  - right. discriminate.
  - reflexivity.
  - reflexivity.
Defined.

Lemma updateArtifacts_without_drift_witness :
  result (Disk.surroundings (Disk.writing [("README.md", "text")]))
         (Disk.pyproject None [mkUpgrade None None (Some "dep1")])
         (mkPyProject None)
         [("requirements.lock", "old"); ("requirements-dev.lock", "old dev")]
  = Normal None.
Proof.
  apply (updateArtifacts_without_drift Disk.Files
           (Disk.surroundings (Disk.writing [("README.md", "text")]))
           (Disk.pyproject None [mkUpgrade None None (Some "dep1")])
           (mkPyProject None)
           [("requirements.lock", "old"); ("requirements-dev.lock", "old dev")]
           (fun files p => property p files)
           ["rye lock --update dep1"]).
  - intros p files. reflexivity.
  - intros cs options files. repeat split.
  - reflexivity.
Defined.

(** ** [process] *)

Section ProcessFacts.

Variable dt : DepTypes.
Variable defaultURL : string.
Variable parseDependencyList :
  string -> option (list string) -> list Process.PackageDependency.

Lemma push_urls (ryeSources : list Process.RyeSource) :
  forall registryUrls,
    fold_left (fun registryUrls source =>
                 (registryUrls ++ [Process.url source])%list)
              ryeSources registryUrls
    = (registryUrls ++ map Process.url ryeSources)%list.
Proof.
  induction ryeSources as [|source rest IH]; intros registryUrls; simpl.
  - now rewrite app_nil_r.
  - rewrite IH. now rewrite <- app_assoc.
Qed.

(** X19.  With [tool.rye.sources] given, every dependency returned,
    those passed in as well as the dev dependencies added, gets the
    same [registryUrls]: the source urls in the order of the sources,
    preceded by the default PyPI url unless a source is named [pypi]. *)
Theorem process_registryUrls
    (project : Process.PyProject) (deps : list Process.PackageDependency)
    (tool : Process.Tool) (rye : Process.Rye) (ryeSources : list Process.RyeSource) :
  Process.tool project = Some tool ->
  Process.rye tool = Some rye ->
  Process.sources rye = Some ryeSources ->
  Forall (fun dep =>
            Process.registryUrls dep
            = Some ((if existsb (fun s => String.eqb (Process.name s) "pypi") ryeSources
                     then [] else [defaultURL])
                    ++ map Process.url ryeSources)%list)
         (Process.process dt defaultURL parseDependencyList project deps).
Proof.
  intros Ht Hr Hs. unfold Process.process. rewrite Ht, Hr, Hs.
  apply Forall_forall. intros dep Hin.
  apply in_map_iff in Hin as [dep0 [<- _]].
  unfold Process.setRegistryUrls, Process.sourceRegistryUrls. cbn [Process.registryUrls].
  rewrite push_urls.
  now destruct (existsb (fun s => String.eqb (Process.name s) "pypi") ryeSources).
Qed.

(** X20.  With a [tool.rye] table, [process] returns the dependencies
    passed in, in their order, followed by the parsed
    [dev-dependencies]; nothing but [registryUrls] is changed in any of
    them. *)
Theorem process_appends_dev_dependencies
    (project : Process.PyProject) (deps : list Process.PackageDependency)
    (tool : Process.Tool) (rye : Process.Rye) :
  Process.tool project = Some tool ->
  Process.rye tool = Some rye ->
  map Process.withoutRegistryUrls
      (Process.process dt defaultURL parseDependencyList project deps)
  = map Process.withoutRegistryUrls
        (deps ++ parseDependencyList (ryeDevDependencies dt)
                                     (Process.dev_dependencies rye))%list.
Proof.
  intros Ht Hr. unfold Process.process. rewrite Ht, Hr.
  destruct (Process.sources rye) as [ryeSources|]; [|reflexivity].
  rewrite map_map. apply map_ext. intros dep. reflexivity.
Qed.

(** X21.  Without [tool.rye.sources], or without a [tool.rye] table at
    all, the dependencies passed in come back unchanged, their
    [registryUrls] included, at the head of the result. *)
Theorem process_without_sources
    (project : Process.PyProject) (deps : list Process.PackageDependency) :
  (forall tool rye,
      Process.tool project = Some tool -> Process.rye tool = Some rye ->
      Process.sources rye = None) ->
  firstn (length deps)
         (Process.process dt defaultURL parseDependencyList project deps)
  = deps.
Proof.
  intros Hnone. unfold Process.process.
  destruct (Process.tool project) as [tool|];
    [|now rewrite firstn_all].
  destruct (Process.rye tool) as [rye|] eqn:Hr;
    [|now rewrite firstn_all].
  rewrite (Hnone tool rye eq_refl Hr).
  rewrite firstn_app, firstn_all, Nat.sub_diag. simpl. now rewrite app_nil_r.
Qed.

End ProcessFacts.

Lemma process_registryUrls_witness :
  Forall (fun dep =>
            Process.registryUrls dep
            = Some ((if existsb (fun s => String.eqb (Process.name s) "pypi")
                               [Process.mkRyeSource "private" "https://example.org/simple"]
                     then [] else ["https://pypi.org/pypi/"])
                    ++ map Process.url
                         [Process.mkRyeSource "private" "https://example.org/simple"])%list)
         (Process.process pep621_depTypes "https://pypi.org/pypi/"
            Process.requirementNames
            (Process.mkPyProject
               (Some (Process.mkTool
                  (Some (Process.mkRye (Some ["pytest"])
                     (Some [Process.mkRyeSource "private" "https://example.org/simple"]))))))
            [Process.mkPackageDependency (Some "project.dependencies") (Some "dep1")
               (Some "dep1") None (Some ["https://old.example.org"])]).
Proof.
  apply (process_registryUrls pep621_depTypes "https://pypi.org/pypi/"
           Process.requirementNames
           (Process.mkPyProject
              (Some (Process.mkTool
                 (Some (Process.mkRye (Some ["pytest"])
                    (Some [Process.mkRyeSource "private" "https://example.org/simple"]))))))
           [Process.mkPackageDependency (Some "project.dependencies") (Some "dep1")
              (Some "dep1") None (Some ["https://old.example.org"])]
           (Process.mkTool
              (Some (Process.mkRye (Some ["pytest"])
                 (Some [Process.mkRyeSource "private" "https://example.org/simple"]))))
           (Process.mkRye (Some ["pytest"])
              (Some [Process.mkRyeSource "private" "https://example.org/simple"]))
           [Process.mkRyeSource "private" "https://example.org/simple"]);
    reflexivity.
Defined.

Lemma process_appends_dev_dependencies_witness :
  map Process.withoutRegistryUrls
      (Process.process pep621_depTypes "https://pypi.org/pypi/"
         Process.requirementNames
         (Process.mkPyProject
            (Some (Process.mkTool (Some (Process.mkRye (Some ["pytest"]) (Some [])))))
         )
         [Process.mkPackageDependency (Some "project.dependencies") (Some "dep1")
            (Some "dep1") None None])
  = map Process.withoutRegistryUrls
        ([Process.mkPackageDependency (Some "project.dependencies") (Some "dep1")
            (Some "dep1") None None]
         ++ Process.requirementNames (ryeDevDependencies pep621_depTypes)
              (Process.dev_dependencies (Process.mkRye (Some ["pytest"]) (Some []))))%list.
Proof.
  apply (process_appends_dev_dependencies pep621_depTypes "https://pypi.org/pypi/"
           Process.requirementNames
           (Process.mkPyProject
              (Some (Process.mkTool (Some (Process.mkRye (Some ["pytest"]) (Some []))))))
           [Process.mkPackageDependency (Some "project.dependencies") (Some "dep1")
              (Some "dep1") None None]
           (Process.mkTool (Some (Process.mkRye (Some ["pytest"]) (Some []))))
           (Process.mkRye (Some ["pytest"]) (Some [])));
    reflexivity.
Defined.

Lemma process_without_sources_witness :
  firstn (length [Process.mkPackageDependency None (Some "dep1") (Some "dep1") None
                    (Some ["https://old.example.org"])])
         (Process.process pep621_depTypes "https://pypi.org/pypi/"
            Process.requirementNames
            (Process.mkPyProject
               (Some (Process.mkTool (Some (Process.mkRye (Some ["pytest"]) None)))))
            [Process.mkPackageDependency None (Some "dep1") (Some "dep1") None
               (Some ["https://old.example.org"])])
  = [Process.mkPackageDependency None (Some "dep1") (Some "dep1") None
       (Some ["https://old.example.org"])].
Proof.
  apply (process_without_sources pep621_depTypes "https://pypi.org/pypi/"
           Process.requirementNames
           (Process.mkPyProject
              (Some (Process.mkTool (Some (Process.mkRye (Some ["pytest"]) None)))))
           [Process.mkPackageDependency None (Some "dep1") (Some "dep1") None
              (Some ["https://old.example.org"])]).
  intros tool rye Ht Hr. inversion Ht; subst. inversion Hr; subst. reflexivity.
Defined.
